(** * ATM interface (atm_idle.py): account store and account operations

    A shallow embedding of the account store ([load_accounts],
    [save_accounts]) and of the operations on it ([create_account],
    [add_transaction], [deposit], [withdraw], [transfer], [change_pin]),
    followed by the properties the specification states about them; then
    of the operations that only read ([authenticate], [check_balance],
    [mini_statement]) and of the two menu loops ([atm_menu], [main]), with
    further properties of the whole.

    Modelling choices, all taken from the source:
    - a Python [float] is an IEEE 754 binary64 number: [spec_float] with
      precision 53 and maximal exponent 1024, with the rounding of the
      standard library's [SFadd] and [SFsub];
    - the dictionary [accounts] is a finite map from account numbers to
      account records; an inner dictionary is a record, a list a [list];
    - the operations mutate [accounts] in place and write the file
      [ACCOUNTS_FILE]: both are components of an explicit state that a small
      state-and-exception monad threads through the calls;
    - what the user types is an argument of the operation, already stripped;
      [float(text)] is the argument [parsed], [None] when it raises
      [ValueError]; the reading of the clock in [add_transaction] is the
      argument [now];
    - a menu loop reads a list of turns, one per round: the choice typed
      and the answers to the prompts of the round; the text written to the
      terminal is kept only as the value each operation reports;
    - [json.dump] and [json.load] belong to Python's library: they are the
      two operations of the class [Json]; the file system is taken to work,
      so that [save_accounts] completes its write;
    - [str.isdigit] and [len] belong to Python's library as well: they are
      the two operations of the class [Text]; a [string] stands for a
      Python text, compared with [=] and joined with [++]. *)

From Stdlib Require Import ZArith Ascii String Bool List Lia.
From Stdlib Require Import Floats.SpecFloat.
From stdpp Require Import base option strings gmap list.

Local Open Scope string_scope.

(** ** Python floats *)

Abbreviation float := spec_float.

Definition prec : Z := 53.
Definition emax : Z := 1024.

(** [x + y] and [x - y] on floats. *)
Definition float_add (x y : float) : float := SFadd prec emax x y.
Definition float_sub (x y : float) : float := SFsub prec emax x y.

(** [x <= y], [x < y] and [x > y] on floats; all three are false when an
    operand is NaN. *)
Definition float_le (x y : float) : bool := SFleb x y.
Definition float_lt (x y : float) : bool := SFltb x y.
Definition float_gt (x y : float) : bool :=
  match SFcompare x y with
  | Some Gt => true
  | _ => false
  end.

(** The literal [0.0], and the int [0] of [amt <= 0] once converted. *)
Definition float_zero : float := S754_zero false.

(** [float(z)] for an integer [z], and the quotient of [float(n)] by
    [float(10^k)]. When [n] and [10^k] are binary64 numbers ([n] below
    [2^53] in absolute value, [k] at most 22) the quotient is the float
    nearest to [n / 10^k]: the value [float] parses from the decimal
    numeral of [n] with [k] decimals. It is used within these bounds, to
    write the amounts of the sample data. *)
Definition float_of_Z (z : Z) : float := binary_normalize prec emax z 0 false.
Definition float_of_decimal (n : Z) (k : nat) : float :=
  SFdiv prec emax (float_of_Z n) (float_of_Z (10 ^ Z.of_nat k)).

(** A float a Python program can hold. *)
Definition is_float (x : float) : bool := valid_binary prec emax x.

(** Neither an infinity nor NaN: [math.isfinite(x)]. *)
Definition is_finite (x : float) : bool :=
  match x with
  | S754_zero _ | S754_finite _ _ _ => true
  | S754_infinity _ | S754_nan => false
  end.

(** ** Data model *)

(** An entry of an account's ["transactions"] list; the keys are ["time"],
    ["type"], ["amount"], ["remark"] and ["balance"]. *)
Record Transaction := mkTransaction {
  tx_time : string;
  tx_type : string;
  tx_amount : float;
  tx_remark : string;
  tx_balance : float
}.

(** A value of the dictionary [accounts]; the keys are ["name"], ["pin"],
    ["balance"] and ["transactions"]. *)
Record Account := mkAccount {
  name : string;
  pin : string;
  balance : float;
  transactions : list Transaction
}.

Abbreviation Accounts := (gmap string Account).

Definition with_pin (p : string) (a : Account) : Account :=
  mkAccount (name a) p (balance a) (transactions a).
Definition with_balance (b : float) (a : Account) : Account :=
  mkAccount (name a) (pin a) b (transactions a).
Definition with_appended (t : Transaction) (a : Account) : Account :=
  mkAccount (name a) (pin a) (balance a) (transactions a ++ [t]).

(** ** The library's JSON codec and the file system *)

Definition ACCOUNTS_FILE : string := "accounts.json".

(** [json.dump(accounts, f, indent=2)] produces the content of a file and
    [json.load(f)] reads one back. [json_load c] is [Some accounts] for a
    content that holds the store [accounts], a mapping from account numbers
    to account records with the four keys and the types of [Account], and
    [None] for a content on which [json.load] raises. A content that is
    JSON of another shape (a list, or a record without its ["pin"]) is read
    by [json.load] without error and makes a later lookup fail; the class
    has no such content, and no statement below is about one. *)
Class Json (Content : Type) := {
  json_dump : Accounts -> Content;
  json_load : Content -> option Accounts
}.

(** The state the program acts on: the dictionary every operation receives
    as [accounts], and the files on disk by path. *)
Record State (Content : Type) := mkState {
  accts : Accounts;
  files : gmap string Content
}.
Arguments mkState {Content} _ _.
Arguments accts {Content} _.
Arguments files {Content} _.

(** The exceptions of the model: the [KeyError] of a lookup
    [accounts[acct_no]] on a missing account number, and the error of
    [json.load]. The errors of the file system ([open] and the writes of
    [json.dump] in [save_accounts], [open] in [load_accounts]) and the
    [EOFError] of [input] are not among them: a statement that an operation
    returns is made over a file system that works, and a statement about
    exceptions is about these two. *)
Inductive exn :=
| KeyError (key : string)
| JSONDecodeError.

(** How a call ends: it returns a value, or an exception escapes it; either
    way the state is what the call left. *)
Inductive outcome (Content A : Type) :=
| Returned (a : A) (s : State Content)
| Raised (e : exn) (s : State Content).
Arguments Returned {Content A} _ _.
Arguments Raised {Content A} _ _.

Definition M (Content A : Type) : Type := State Content -> outcome Content A.

Definition ret {Content A} (a : A) : M Content A := fun s => Returned a s.

Definition bind {Content A B} (m : M Content A) (k : A -> M Content B) : M Content B :=
  fun s =>
    match m s with
    | Returned a s' => k a s'
    | Raised e s' => Raised e s'
    end.

Notation "'let*' x ':=' m 'in' k" := (bind m (fun x => k))
  (at level 10, x name, m at level 100, k at level 200).
Notation "m '>>' k" := (bind m (fun _ => k))
  (at level 100, k at level 200, right associativity).

(** What came back and the state left behind. *)
Definition final_state {Content A} (o : outcome Content A) : State Content :=
  match o with
  | Returned _ s => s
  | Raised _ s => s
  end.

Definition returned {Content A} (o : outcome Content A) : option A :=
  match o with
  | Returned a _ => Some a
  | Raised _ _ => None
  end.

Section Primitives.
Context {Content : Type}.

(** The dictionary [accounts] itself. *)
Definition the_accounts : M Content Accounts :=
  fun s => Returned (accts s) s.

(** [acct_no in accounts]. *)
Definition contains (acct_no : string) : M Content bool :=
  fun s => Returned (bool_decide (is_Some (accts s !! acct_no))) s.

(** [accounts[acct_no]], which raises [KeyError] on a missing key. *)
Definition get_account (acct_no : string) : M Content Account :=
  fun s =>
    match accts s !! acct_no with
    | Some acct => Returned acct s
    | None => Raised (KeyError acct_no) s
    end.

(** [accounts[acct_no] = acct]. *)
Definition set_account (acct_no : string) (acct : Account) : M Content unit :=
  fun s => Returned tt (mkState (<[acct_no := acct]> (accts s)) (files s)).

(** [accounts[acct_no][field] = ...]: the inner dictionary is updated in
    place. *)
Definition update_account (acct_no : string) (f : Account -> Account) : M Content unit :=
  let* acct := get_account acct_no in
  set_account acct_no (f acct).

(** The content of the file at [path], [None] when
    [os.path.exists(path)] is false; and overwriting the file, as
    [open(path, "w")] followed by the write does when the file system lets
    it: the write is taken to succeed. *)
Definition read_file (path : string) : M Content (option Content) :=
  fun s => Returned (files s !! path) s.

Definition write_file (path : string) (c : Content) : M Content unit :=
  fun s => Returned tt (mkState (accts s) (<[path := c]> (files s))).

Definition raise {A} (e : exn) : M Content A := fun s => Raised e s.

End Primitives.

(** ** Text *)

(** [s.isdigit()] and [len(s)] are methods of Python's [str]. What they
    answer is decided by the interpreter and its Unicode character database,
    not by this program: [str.isdigit] accepts every character that the
    database classes as a digit (the Arabic-Indic digits and the
    superscripts as well as [0] to [9]) and refuses the empty text, and
    [len] counts code points. They are the two operations of the class
    [Text]; the operations of the program and their properties are stated
    for any such pair. *)
Class Text := {
  isdigit : string -> bool;
  len : string -> nat
}.

(** On a text of ASCII characters the two are computed as follows; the
    sample data below is ASCII. [c] is one of the characters [0] to [9]: *)
Definition is_digit_char (c : ascii) : bool :=
  (48 <=? nat_of_ascii c)%nat && (nat_of_ascii c <=? 57)%nat.

Fixpoint all_digits (s : string) : bool :=
  match s with
  | EmptyString => true
  | String c rest => is_digit_char c && all_digits rest
  end.

(** Every character is a digit and there is at least one. *)
Definition ascii_isdigit (s : string) : bool :=
  match s with
  | EmptyString => false
  | String _ _ => all_digits s
  end.

Definition ascii_text : Text :=
  {| isdigit := ascii_isdigit; len := String.length |}.

(** ** What an operation prints *)

(** One constructor per [print] of the operations, in the order of the
    source; the amounts of the three success lines are the numbers the
    f-string formats. *)
Inductive message :=
| Invalid_amount                  (* "Invalid amount." *)
| Amount_must_be_positive         (* "Amount must be positive." *)
| Insufficient_funds              (* "Insufficient funds." *)
| Destination_does_not_exist      (* "Destination account does not exist." *)
| Deposited (amt new_balance : float)
| Withdrew (amt new_balance : float)
| Transferred (amt : float) (to_acct : string) (new_balance : float)
| Current_PIN_incorrect           (* "Current PIN incorrect." *)
| PIN_mismatch                    (* "PIN mismatch." *)
| PIN_must_be_numeric             (* "PIN must be numeric and at least 4 digits." *)
| PIN_changed.                    (* "PIN changed successfully." *)

(** The error kinds of the specification. *)
Inductive error :=
| AlreadyExists
| NotFound
| InvalidAmount
| InsufficientFunds
| WrongPin
| PinMismatch
| WeakPin.

(** The error a printed line reports, [None] for a success line. *)
Definition error_of (m : message) : option error :=
  match m with
  | Invalid_amount | Amount_must_be_positive => Some InvalidAmount
  | Insufficient_funds => Some InsufficientFunds
  | Destination_does_not_exist => Some NotFound
  | Current_PIN_incorrect => Some WrongPin
  | PIN_mismatch => Some PinMismatch
  | PIN_must_be_numeric => Some WeakPin
  | Deposited _ _ | Withdrew _ _ | Transferred _ _ _ | PIN_changed => None
  end.

(** [create_account] returns a pair instead of printing. *)
Definition error_of_created (r : bool * string) : option error :=
  if fst r then None else Some AlreadyExists.

(** ** The account store and the operations *)

Section Operations.
Context {Content : Type} {codec : Json Content} {text : Text}.

Definition load_accounts : M Content Accounts :=
  let* f := read_file ACCOUNTS_FILE in
  match f with
  | None => ret ∅
  | Some c =>
      match json_load c with
      | Some accounts => ret accounts
      | None => raise JSONDecodeError
      end
  end.

Definition save_accounts (accounts : Accounts) : M Content unit :=
  write_file ACCOUNTS_FILE (json_dump accounts).

Definition add_transaction (acct_no tx_type : string) (amount : float)
    (remark now : string) : M Content unit :=
  let* acct := get_account acct_no in
  let entry := mkTransaction now tx_type amount remark (balance acct) in
  set_account acct_no (with_appended entry acct).

(** [initial_balance] is [None] when the caller leaves the default. *)
Definition create_account (acct_no name pin : string)
    (initial_balance : option float) (now : string) : M Content (bool * string) :=
  let* present := contains acct_no in
  if present then ret (false, "Account already exists.") else
  set_account acct_no
    (mkAccount name pin (default float_zero initial_balance) []) >>
  add_transaction acct_no "Account Created" float_zero "Initial account setup" now >>
  (let* accounts := the_accounts in save_accounts accounts) >>
  ret (true, "Account created.").

Definition deposit (acct_no : string) (parsed : option float) (now : string) :
    M Content message :=
  match parsed with
  | None => ret Invalid_amount
  | Some amt =>
      if float_le amt float_zero then ret Amount_must_be_positive else
      update_account acct_no (fun a => with_balance (float_add (balance a) amt) a) >>
      add_transaction acct_no "Deposit" amt "Cash deposit" now >>
      (let* accounts := the_accounts in save_accounts accounts) >>
      let* acct := get_account acct_no in
      ret (Deposited amt (balance acct))
  end.

Definition withdraw (acct_no : string) (parsed : option float) (now : string) :
    M Content message :=
  match parsed with
  | None => ret Invalid_amount
  | Some amt =>
      if float_le amt float_zero then ret Amount_must_be_positive else
      let* acct := get_account acct_no in
      if float_gt amt (balance acct) then ret Insufficient_funds else
      update_account acct_no (fun a => with_balance (float_sub (balance a) amt) a) >>
      add_transaction acct_no "Withdrawal" amt "Cash withdrawal" now >>
      (let* accounts := the_accounts in save_accounts accounts) >>
      let* acct := get_account acct_no in
      ret (Withdrew amt (balance acct))
  end.

(** [now_out] and [now_in] are the two readings of the clock, one per
    ledger entry. *)
Definition transfer (acct_no to_acct : string) (parsed : option float)
    (now_out now_in : string) : M Content message :=
  let* present := contains to_acct in
  if negb present then ret Destination_does_not_exist else
  match parsed with
  | None => ret Invalid_amount
  | Some amt =>
      if float_le amt float_zero then ret Amount_must_be_positive else
      let* acct := get_account acct_no in
      if float_gt amt (balance acct) then ret Insufficient_funds else
      update_account acct_no (fun a => with_balance (float_sub (balance a) amt) a) >>
      update_account to_acct (fun a => with_balance (float_add (balance a) amt) a) >>
      add_transaction acct_no "Transfer Out" amt ("To " ++ to_acct) now_out >>
      add_transaction to_acct "Transfer In" amt ("From " ++ acct_no) now_in >>
      (let* accounts := the_accounts in save_accounts accounts) >>
      let* acct := get_account acct_no in
      ret (Transferred amt to_acct (balance acct))
  end.

Definition change_pin (acct_no old new confirm now : string) : M Content message :=
  let* acct := get_account acct_no in
  if bool_decide (old ≠ pin acct) then ret Current_PIN_incorrect else
  if bool_decide (new ≠ confirm) then ret PIN_mismatch else
  if negb (isdigit new) || (len new <? 4)%nat then ret PIN_must_be_numeric else
  update_account acct_no (with_pin new) >>
  add_transaction acct_no "PIN Change" float_zero "PIN updated" now >>
  (let* accounts := the_accounts in save_accounts accounts) >>
  ret PIN_changed.

(** The state once the dictionary has become [accounts] and
    [save_accounts(accounts)] has run. *)
Definition saved (accounts : Accounts) (s : State Content) : State Content :=
  mkState accounts (<[ACCOUNTS_FILE := json_dump accounts]> (files s)).

End Operations.

(** ** Sequences of operations *)

(** One call of an operation of the menu, with what the user typed. *)
Inductive operation :=
| Create (acct_no name pin : string) (initial_balance : option float) (now : string)
| Deposit (acct_no : string) (parsed : option float) (now : string)
| Withdraw (acct_no : string) (parsed : option float) (now : string)
| Transfer (acct_no to_acct : string) (parsed : option float) (now_out now_in : string)
| ChangePin (acct_no old new confirm now : string).

Section Runs.
Context {Content : Type} {codec : Json Content} {text : Text}.

(** The call, reduced to the error it reports ([None]: it succeeded). *)
Definition run (o : operation) : M Content (option error) :=
  match o with
  | Create acct_no name pin initial_balance now =>
      let* r := create_account acct_no name pin initial_balance now in
      ret (error_of_created r)
  | Deposit acct_no parsed now =>
      let* m := deposit acct_no parsed now in ret (error_of m)
  | Withdraw acct_no parsed now =>
      let* m := withdraw acct_no parsed now in ret (error_of m)
  | Transfer acct_no to_acct parsed now_out now_in =>
      let* m := transfer acct_no to_acct parsed now_out now_in in ret (error_of m)
  | ChangePin acct_no old new confirm now =>
      let* m := change_pin acct_no old new confirm now in ret (error_of m)
  end.

(** The state one call, and a sequence of calls, leave behind. *)
Definition after (o : operation) (s : State Content) : State Content :=
  final_state (run o s).

Definition after_all (ops : list operation) (s : State Content) : State Content :=
  fold_left (fun s o => after o s) ops s.

End Runs.

(** ** Predicates of the data model *)

(** [m] keeps [P]: from a state where [P] holds it leaves one where [P]
    holds, whether it returns or raises. *)
Definition preserves {Content A : Type} (P : State Content -> Prop)
    (m : M Content A) : Prop :=
  forall s, P s -> P (final_state (m s)).

(** [0 <= x], which is false for NaN, and [not (x < 0)], which is true
    for NaN. *)
Definition nonnegative (x : float) : bool := float_le float_zero x.
Definition not_negative (x : float) : bool := negb (float_lt x float_zero).

(** Every balance of the store satisfies [P]. *)
Definition balances_satisfy (P : float -> Prop) (accounts : Accounts) : Prop :=
  forall acct_no acct, accounts !! acct_no = Some acct -> P (balance acct).

Definition balances_nonnegative (accounts : Accounts) : Prop :=
  balances_satisfy (fun b => nonnegative b = true) accounts.

(** Every balance is a binary64 number that is [>= 0]. *)
Definition balances_sound (accounts : Accounts) : Prop :=
  balances_satisfy (fun b => is_float b = true /\ nonnegative b = true) accounts.

(** The operation is a withdrawal or a transfer. *)
Definition moves_money_out (o : operation) : Prop :=
  match o with
  | Withdraw _ _ _ | Transfer _ _ _ _ _ => True
  | _ => False
  end.

(** The amount typed, when it parses, satisfies [P]. *)
Definition amount_satisfies (P : float -> Prop) (o : operation) : Prop :=
  match o with
  | Deposit _ (Some amt) _ | Withdraw _ (Some amt) _ | Transfer _ _ (Some amt) _ _ =>
      P amt
  | _ => True
  end.

(** The amount typed, when it parses, is a finite binary64 number. *)
Definition finite_amount (o : operation) : Prop :=
  amount_satisfies (fun amt => is_float amt = true /\ is_finite amt = true) o.

(** A PIN that passes the strength check of [change_pin]: a text of
    digits, as [str.isdigit] decides, of length at least 4. *)
Definition pin_ok {text : Text} (p : string) : bool :=
  isdigit p && (4 <=? len p)%nat.

Definition pins_ok {text : Text} (accounts : Accounts) : Prop :=
  forall acct_no acct, accounts !! acct_no = Some acct -> pin_ok (pin acct) = true.

Definition pins_inv {Content : Type} {text : Text} : State Content -> Prop :=
  fun s => pins_ok (accts s).

(** The PIN an operation hands to [create_account], if it is one. *)
Definition creates_with_pin_ok {text : Text} (o : operation) : Prop :=
  match o with
  | Create _ _ p _ _ => pin_ok p = true
  | _ => True
  end.

(** The round trip of the library's codec, for the statements that assume
    it: what [json.dump] writes, [json.load] reads back. *)
Definition json_roundtrips {Content : Type} (codec : Json Content) : Prop :=
  forall accounts : Accounts, json_load (json_dump accounts) = Some accounts.

(** ** Sample data *)

(** A codec whose file content is the mapping itself. *)
Definition snapshot_json : Json Accounts :=
  {| json_dump := fun accounts => accounts; json_load := fun c => Some c |}.

Definition empty_state : State Accounts := mkState ∅ ∅.

(** The store [main] sets up when it finds no accounts. *)
Definition demo_state : State Accounts :=
  after_all (codec := snapshot_json) (text := ascii_text)
    [Create "1001" "Alice" "1234" (Some (float_of_Z 5000)) "2025-01-01 09:00:00";
     Create "1002" "Bob" "2345" (Some (float_of_Z 3000)) "2025-01-01 09:00:00"]
    empty_state.

Definition alice : Account :=
  mkAccount "Alice" "1234" (float_of_Z 5000)
    [mkTransaction "2025-01-01 09:00:00" "Account Created" float_zero
       "Initial account setup" (float_of_Z 5000)].

Definition bob : Account :=
  mkAccount "Bob" "2345" (float_of_Z 3000)
    [mkTransaction "2025-01-01 09:00:00" "Account Created" float_zero
       "Initial account setup" (float_of_Z 3000)].

(** ** The operations that only read *)

(** The line [authenticate] prints. *)
Inductive login_line :=
| Account_not_found               (* "Account not found." *)
| Invalid_PIN                     (* "Invalid PIN." *)
| Welcome (holder : string).      (* "Welcome, {name}!" *)

(** What [mini_statement] prints: the line "No transactions yet.", or the
    header "Last {len(txs)} transactions:" and one line per entry of
    [txs], in this order. *)
Inductive statement :=
| No_transactions_yet
| Last_transactions (txs : list Transaction).

(** The slice [l[k:]] of a Python list: a negative [k] counts from the
    end, and an index out of range is clipped. *)
Definition slice_from {A : Type} (k : Z) (l : list A) : list A :=
  let n := Z.of_nat (length l) in
  let start := if (k <? 0)%Z then Z.max (k + n) 0 else Z.min k n in
  drop (Z.to_nat start) l.

Section Reads.
Context {Content : Type} {codec : Json Content} {text : Text}.

(** [acct_no] and [typed_pin] are the two lines typed; the second is only
    asked for when the account exists. The result pairs the value returned
    ([None] or the account number) with the line printed. *)
Definition authenticate (acct_no typed_pin : string) :
    M Content (option string * login_line) :=
  let* present := contains acct_no in
  if negb present then ret (None, Account_not_found) else
  let* acct := get_account acct_no in
  if bool_decide (typed_pin ≠ pin acct) then ret (None, Invalid_PIN) else
  ret (Some acct_no, Welcome (name acct)).

(** The balance the line of [check_balance] shows. *)
Definition check_balance (acct_no : string) : M Content float :=
  let* acct := get_account acct_no in
  ret (balance acct).

(** [limit] is [None] when the caller leaves the default of 10. *)
Definition mini_statement (acct_no : string) (limit : option Z) :
    M Content statement :=
  let* acct := get_account acct_no in
  let txs := slice_from (- default 10%Z limit) (transactions acct) in
  match txs with
  | [] => ret No_transactions_yet
  | _ :: _ => ret (Last_transactions txs)
  end.

(** [accounts = load_accounts()]: the variable is bound to the mapping
    read from disk. *)
Definition reload_accounts : M Content unit :=
  let* accounts := load_accounts in
  fun s => Returned tt (mkState accounts (files s)).

End Reads.

(** ** The two menus *)

(** What the user types during one round of a menu loop: the choice, and
    the answer to each prompt the round may show. A round shows each kind
    of prompt at most once. [typed_amount] is the result of [float] on the
    amount typed ([None]: [ValueError]); [clock_1] and [clock_2] are the
    readings of the clock the round may take. *)
Record turn := mkTurn {
  typed_choice : string;
  typed_account : string;
  typed_name : string;
  typed_pin : string;
  typed_new_pin : string;
  typed_confirm : string;
  typed_amount : option float;
  clock_1 : string;
  clock_2 : string
}.

(** How a loop ends: by its exit choice, because there is no more input
    ([input] raises [EOFError]; the input is taken to close between two
    rounds), or by an exception of the model, [exn], that an operation
    raises. *)
Inductive ending :=
| Exited
| Input_closed
| Crashed (e : exn).

Section Menus.
Context {Content : Type} {codec : Json Content} {text : Text}.

(** The rest of a loop round after a call: the loop goes on from the state
    the call left, or the exception ends it. *)
Definition resume {A : Type} (o : outcome Content A) (rest : list turn)
    (next : State Content -> ending * State Content * list turn) :
    ending * State Content * list turn :=
  match o with
  | Returned _ s' => next s'
  | Raised e s' => (Crashed e, s', rest)
  end.

(** The loop of [atm_menu]: it returns how it ended, the state, and the
    turns it did not read. *)
Fixpoint atm_menu (acct_no : string) (turns : list turn) (s : State Content) :
    ending * State Content * list turn :=
  match turns with
  | [] => (Input_closed, s, [])
  | t :: rest =>
      let next := atm_menu acct_no rest in
      if bool_decide (typed_choice t = "1") then
        resume (check_balance acct_no s) rest next
      else if bool_decide (typed_choice t = "2") then
        resume (deposit acct_no (typed_amount t) (clock_1 t) s) rest next
      else if bool_decide (typed_choice t = "3") then
        resume (withdraw acct_no (typed_amount t) (clock_1 t) s) rest next
      else if bool_decide (typed_choice t = "4") then
        resume (transfer acct_no (typed_account t) (typed_amount t)
                  (clock_1 t) (clock_2 t) s) rest next
      else if bool_decide (typed_choice t = "5") then
        resume (mini_statement acct_no None s) rest next
      else if bool_decide (typed_choice t = "6") then
        resume (change_pin acct_no (typed_pin t) (typed_new_pin t)
                  (typed_confirm t) (clock_1 t) s) rest next
      else if bool_decide (typed_choice t = "7") then
        (Exited, s, rest)
      else next s
  end.

(** [if acct_no:] on a string. *)
Definition truthy (acct_no : string) : bool :=
  negb (bool_decide (acct_no = "")).

(** Choice 1 of [main]: authenticate, run the ATM menu when an account
    number came back and is not empty, then bind [accounts] to what is on
    disk. Without a session the turns are left for [main]. *)
Definition login (t : turn) (rest : list turn) (s : State Content) :
    ending * State Content * list turn :=
  match authenticate (typed_account t) (typed_pin t) s with
  | Raised e s1 => (Crashed e, s1, rest)
  | Returned (r, _) s1 =>
      let session :=
        match r with
        | Some acct_no =>
            if truthy acct_no then atm_menu acct_no rest s1
            else (Exited, s1, rest)
        | None => (Exited, s1, rest)
        end in
      match session with
      | (Exited, s2, rest') =>
          resume (reload_accounts s2) rest' (fun s3 => (Exited, s3, rest'))
      | stopped => stopped
      end
  end.

(** Choice 2 of [main]; the initial deposit is 0.0 when the text typed is
    empty or does not parse. *)
Definition register (t : turn) : M Content (bool * string) :=
  create_account (typed_account t) (typed_name t) (typed_pin t)
    (Some (default float_zero (typed_amount t))) (clock_1 t).

(** The loop of [main]. Each round reads at least one turn, so [fuel]
    above the number of turns is never used up; [None] is a loop cut short
    by [fuel]. *)
Fixpoint main_loop (fuel : nat) (turns : list turn) (s : State Content) :
    option (ending * State Content) :=
  match fuel with
  | O => None
  | S fuel' =>
      match turns with
      | [] => Some (Input_closed, s)
      | t :: rest =>
          if bool_decide (typed_choice t = "1") then
            match login t rest s with
            | (Exited, s', rest') => main_loop fuel' rest' s'
            | (stopped, s', _) => Some (stopped, s')
            end
          else if bool_decide (typed_choice t = "2") then
            match register t s with
            | Returned _ s' => main_loop fuel' rest s'
            | Raised e s' => Some (Crashed e, s')
            end
          else if bool_decide (typed_choice t = "3") then
            Some (Exited, s)
          else main_loop fuel' rest s
      end
  end.

(** The two demo accounts [main] creates when it finds none. *)
Definition create_demo_accounts (now_1 now_2 : string) : M Content unit :=
  create_account "1001" "Alice" "1234" (Some (float_of_Z 5000)) now_1 >>
  create_account "1002" "Bob" "2345" (Some (float_of_Z 3000)) now_2 >>
  ret tt.

(** [main], started on the files [disk]; [now_1] and [now_2] are the
    readings of the clock for the demo accounts. *)
Definition main (now_1 now_2 : string) (turns : list turn)
    (disk : gmap string Content) : option (ending * State Content) :=
  match reload_accounts (mkState ∅ disk) with
  | Raised e s => Some (Crashed e, s)
  | Returned _ s =>
      let started :=
        if (size (accts s) =? 0)%nat then create_demo_accounts now_1 now_2 s
        else Returned tt s in
      match started with
      | Raised e s' => Some (Crashed e, s')
      | Returned _ s' => main_loop (S (length turns)) turns s'
      end
  end.

End Menus.

(** ** Accepted operations *)

(** The account a menu operation acts for; [create_account] has none. *)
Definition session_account (o : operation) : option string :=
  match o with
  | Create _ _ _ _ _ => None
  | Deposit acct_no _ _ | Withdraw acct_no _ _ | Transfer acct_no _ _ _ _
  | ChangePin acct_no _ _ _ _ => Some acct_no
  end.

(** The account numbers an operation is given. *)
Definition accounts_named (o : operation) : list string :=
  match o with
  | Create acct_no _ _ _ _ | Deposit acct_no _ _ | Withdraw acct_no _ _
  | ChangePin acct_no _ _ _ _ => [acct_no]
  | Transfer acct_no to_acct _ _ _ => [acct_no; to_acct]
  end.

(** [accepts o accounts accounts']: [o] passes every check on the
    dictionary [accounts] and turns it into [accounts']. One rule per path
    of the source that reaches [save_accounts]. *)
Inductive accepts {text : Text} : operation -> Accounts -> Accounts -> Prop :=
| accepts_create acct_no nm p initial_balance now accounts :
    accounts !! acct_no = None ->
    accepts (Create acct_no nm p initial_balance now) accounts
      (<[acct_no :=
           mkAccount nm p (default float_zero initial_balance)
             [mkTransaction now "Account Created" float_zero
                "Initial account setup" (default float_zero initial_balance)]]>
         accounts)
| accepts_deposit acct_no amt now accounts a :
    accounts !! acct_no = Some a ->
    float_le amt float_zero = false ->
    accepts (Deposit acct_no (Some amt) now) accounts
      (<[acct_no :=
           mkAccount (name a) (pin a) (float_add (balance a) amt)
             (transactions a ++
              [mkTransaction now "Deposit" amt "Cash deposit"
                 (float_add (balance a) amt)])]>
         accounts)
| accepts_withdraw acct_no amt now accounts a :
    accounts !! acct_no = Some a ->
    float_le amt float_zero = false ->
    float_gt amt (balance a) = false ->
    accepts (Withdraw acct_no (Some amt) now) accounts
      (<[acct_no :=
           mkAccount (name a) (pin a) (float_sub (balance a) amt)
             (transactions a ++
              [mkTransaction now "Withdrawal" amt "Cash withdrawal"
                 (float_sub (balance a) amt)])]>
         accounts)
| accepts_transfer acct_no to_acct amt now_out now_in accounts a b :
    accounts !! acct_no = Some a ->
    accounts !! to_acct = Some b ->
    acct_no <> to_acct ->
    float_le amt float_zero = false ->
    float_gt amt (balance a) = false ->
    accepts (Transfer acct_no to_acct (Some amt) now_out now_in) accounts
      (<[to_acct :=
           mkAccount (name b) (pin b) (float_add (balance b) amt)
             (transactions b ++
              [mkTransaction now_in "Transfer In" amt ("From " ++ acct_no)
                 (float_add (balance b) amt)])]>
         (<[acct_no :=
              mkAccount (name a) (pin a) (float_sub (balance a) amt)
                (transactions a ++
                 [mkTransaction now_out "Transfer Out" amt ("To " ++ to_acct)
                    (float_sub (balance a) amt)])]>
            accounts))
| accepts_self_transfer acct_no amt now_out now_in accounts a :
    accounts !! acct_no = Some a ->
    float_le amt float_zero = false ->
    float_gt amt (balance a) = false ->
    accepts (Transfer acct_no acct_no (Some amt) now_out now_in) accounts
      (<[acct_no :=
           mkAccount (name a) (pin a) (float_add (float_sub (balance a) amt) amt)
             (transactions a ++
              [mkTransaction now_out "Transfer Out" amt ("To " ++ acct_no)
                 (float_add (float_sub (balance a) amt) amt);
               mkTransaction now_in "Transfer In" amt ("From " ++ acct_no)
                 (float_add (float_sub (balance a) amt) amt)])]>
         accounts)
| accepts_change_pin acct_no new now accounts a :
    accounts !! acct_no = Some a ->
    isdigit new = true ->
    (4 <= len new)%nat ->
    accepts (ChangePin acct_no (pin a) new new now) accounts
      (<[acct_no :=
           mkAccount (name a) new (balance a)
             (transactions a ++
              [mkTransaction now "PIN Change" float_zero "PIN updated"
                 (balance a)])]>
         accounts).

(** ** Predicates on ledgers and on the snapshot *)

(** The ledger has entries and its last one records the balance the
    account has now. *)
Definition ledger_current (acct : Account) : Prop :=
  exists older e,
    transactions acct = (older ++ [e])%list /\ tx_balance e = balance acct.

Definition ledgers_current (accounts : Accounts) : Prop :=
  forall acct_no acct, accounts !! acct_no = Some acct -> ledger_current acct.

(** [accounts'] has every account of [accounts], under the same holder
    name and with a ledger that starts with the old one. *)
Definition grows (accounts accounts' : Accounts) : Prop :=
  forall acct_no acct, accounts !! acct_no = Some acct ->
    exists acct', accounts' !! acct_no = Some acct' /\
      name acct' = name acct /\
      transactions acct `prefix_of` transactions acct'.

(** The snapshot on disk is the dictionary in memory: [load_accounts]
    would return it. *)
Definition synced {Content : Type} {codec : Json Content}
    (s : State Content) : Prop :=
  load_accounts s = Returned (accts s) s.

(** [acct'] is [acct] with incoming transfers added: the holder name and
    the PIN are the same, and the ledger has only got ["Transfer In"]
    entries appended. *)
Definition credited (acct acct' : Account) : Prop :=
  name acct' = name acct /\ pin acct' = pin acct /\
  exists entries,
    transactions acct' = (transactions acct ++ entries)%list /\
    Forall (fun e => tx_type e = "Transfer In") entries.

(** What a session for [acct_no] may do to the rest of the store: it adds
    and removes no account, and the other accounts are at most credited. *)
Definition others_credited (acct_no : string) (accounts accounts' : Accounts) : Prop :=
  forall k, k <> acct_no ->
    match accounts !! k, accounts' !! k with
    | Some b, Some b' => credited b b'
    | None, None => True
    | _, _ => False
    end.

(** ** More sample data *)

(** A codec whose file content is the mapping, or [None] for a file that
    [json.load] cannot read. *)
Definition fallible_json : Json (option Accounts) :=
  {| json_dump := fun accounts => Some accounts; json_load := fun c => c |}.

(** A turn on which only the choice matters. *)
Definition choose (choice : string) : turn :=
  mkTurn choice "" "" "" "" "" None "" "".

(** A visit to the machine: log in as "1001", deposit 200.00, look at the
    statement, send 100.00 to "1002", mistype a choice, log out, leave. *)
Definition sample_visit : list turn :=
  [mkTurn "1" "1001" "" "1234" "" "" None "" "";
   mkTurn "2" "" "" "" "" "" (Some (float_of_Z 200)) "2025-01-02 10:00:00" "";
   choose "5";
   mkTurn "4" "1002" "" "" "" "" (Some (float_of_Z 100))
     "2025-01-02 10:10:00" "2025-01-02 10:10:01";
   choose "9";
   choose "7";
   choose "3"].

(** * Properties *)

(** ** Comparisons of floats *)

Lemma float_gt_not_le (x y : float) :
  float_gt x y = true -> float_le x y = false.
Proof.
  unfold float_gt, float_le, SFleb.
  destruct (SFcompare x y) as [[]|]; congruence.
Qed.

Lemma float_le_not_gt (x y : float) :
  float_le x y = true -> float_gt x y = false.
Proof.
  unfold float_gt, float_le, SFleb.
  destruct (SFcompare x y) as [[]|]; congruence.
Qed.

(** [x > y] is [y < x]. *)
Lemma float_gt_lt (x y : float) : float_gt x y = float_lt y x.
Proof.
  unfold float_gt, float_lt, SFltb.
  destruct x as [sx|[]| |[] mx ex], y as [sy|[]| |[] my ey];
    try reflexivity; try (destruct sx; reflexivity); try (destruct sy; reflexivity);
    cbn [SFcompare];
    rewrite (Z.compare_antisym ex ey);
    destruct (ex ?= ey)%Z; cbn [CompOpp]; try reflexivity;
    change (Pos.compare_cont Eq my mx) with (my ?= mx)%positive;
    change (Pos.compare_cont Eq mx my) with (mx ?= my)%positive;
    rewrite (Pos.compare_antisym mx my);
    destruct (mx ?= my)%positive; reflexivity.
Qed.

(** [0 < x] and [x > 0] are one test. *)
Lemma float_lt_zero_gt (x : float) :
  float_lt float_zero x = float_gt x float_zero.
Proof.
  unfold float_lt, float_gt, SFltb, float_zero.
  destruct x as [sx|[]| |[] m e]; reflexivity.
Qed.

Lemma float_pos_not_le (x : float) :
  float_lt float_zero x = true -> float_le x float_zero = false.
Proof. rewrite float_lt_zero_gt. apply float_gt_not_le. Qed.

(** An amount above a balance that is [>= 0] is positive: the test
    [amt <= 0] does not stop it. *)
Lemma float_above_nonnegative (w b : float) :
  float_le float_zero b = true -> float_gt w b = true ->
  float_le w float_zero = false.
Proof.
  unfold float_gt, float_le, SFleb, float_zero.
  destruct b as [sb|[]| |[] mb eb], w as [sw|[]| |[] mw ew];
    cbn; congruence.
Qed.

(** ** Signs of sums and differences

    The sum of two floats that are [>= 0] is [>= 0], and so is the
    difference [x - y] of two binary64 numbers with [y] finite and
    [0 < y <= x]: the rounding of [binary_normalize] keeps the sign of the
    exact result. *)

Section Signs.
Local Open Scope Z_scope.

(** Shifting right keeps a mantissa non-negative. *)
Lemma shr_1_nonneg mrs : 0 <= shr_m mrs -> 0 <= shr_m (shr_1 mrs).
Proof.
  destruct mrs as [m r t]. cbn [shr_m]. intros Hm.
  destruct m as [|[p|p|]|p]; cbn; lia.
Qed.

Lemma iter_shr_1_nonneg p mrs :
  0 <= shr_m mrs -> 0 <= shr_m (SpecFloat.iter_pos shr_1 p mrs).
Proof.
  revert mrs. induction p as [p IH|p IH|]; intros mrs Hm; cbn.
  - apply IH, IH, shr_1_nonneg, Hm.
  - apply IH, IH, Hm.
  - apply shr_1_nonneg, Hm.
Qed.

Lemma shr_fexp_nonneg m e l :
  0 <= m -> 0 <= shr_m (fst (shr_fexp prec emax m e l)).
Proof.
  intros Hm. unfold shr_fexp, shr.
  assert (H0 : 0 <= shr_m (shr_record_of_loc m l)) by (destruct l as [|[]]; exact Hm).
  destruct (fexp prec emax (Zdigits2 m + e) - e); cbn [fst]; try exact H0.
  apply iter_shr_1_nonneg, H0.
Qed.

Lemma round_nearest_even_nonneg m l : 0 <= m -> 0 <= round_nearest_even m l.
Proof.
  intros Hm. destruct l as [|[]]; cbn; try lia.
  destruct (Z.even m); lia.
Qed.

Lemma binary_round_aux_nonneg m e l :
  0 <= m -> nonnegative (binary_round_aux prec emax false m e l) = true.
Proof.
  intros Hm. unfold binary_round_aux.
  pose proof (shr_fexp_nonneg m e l Hm) as H1.
  destruct (shr_fexp prec emax m e l) as [mrs1 e1]. cbn [fst] in H1.
  pose proof (shr_fexp_nonneg _ e1 loc_Exact
                (round_nearest_even_nonneg _ (loc_of_shr_record mrs1) H1)) as H2.
  destruct (shr_fexp prec emax _ e1 loc_Exact) as [mrs2 e2]. cbn [fst] in H2.
  destruct (shr_m mrs2) as [|p|p]; [reflexivity| |lia].
  destruct (e2 <=? emax - prec); reflexivity.
Qed.

Lemma binary_normalize_nonneg m e :
  0 <= m -> nonnegative (binary_normalize prec emax m e false) = true.
Proof.
  intros Hm. destruct m as [|p|p]; [reflexivity| |lia].
  cbn [binary_normalize]. unfold binary_round.
  destruct (shl_align p e _) as [mz ez]. apply binary_round_aux_nonneg. lia.
Qed.

Lemma digits2_pos_bounds (m : positive) :
  2 ^ (Zpos (digits2_pos m) - 1) <= Zpos m < 2 ^ Zpos (digits2_pos m).
Proof.
  induction m as [m IH|m IH|]; cbn [digits2_pos].
  - rewrite Pos2Z.inj_succ.
    replace (Z.succ (Zpos (digits2_pos m)) - 1) with (Z.succ (Zpos (digits2_pos m) - 1)) by lia.
    rewrite !Z.pow_succ_r by lia. lia.
  - rewrite Pos2Z.inj_succ.
    replace (Z.succ (Zpos (digits2_pos m)) - 1) with (Z.succ (Zpos (digits2_pos m) - 1)) by lia.
    rewrite !Z.pow_succ_r by lia. lia.
  - cbn. lia.
Qed.

Lemma iter_xO_pow (m d : positive) :
  Zpos (Pos.iter xO m d) = Zpos m * 2 ^ Zpos d.
Proof.
  induction d as [|d IH] using Pos.peano_ind.
  - cbn. lia.
  - rewrite Pos.iter_succ, Pos2Z.inj_succ, Z.pow_succ_r by lia.
    rewrite Pos2Z.inj_xO, IH. lia.
Qed.

Lemma float_add_nonneg (x y : float) :
  nonnegative x = true -> nonnegative y = true ->
  nonnegative (float_add x y) = true.
Proof.
  destruct x as [sx|[]| |[] mx ex], y as [sy|[]| |[] my ey];
    try discriminate; try reflexivity.
  - destruct sx, sy; reflexivity.
  - intros _ _. unfold float_add, SFadd. apply binary_normalize_nonneg.
    cbn [cond_Zopp]. lia.
Qed.

(** The mantissa of a binary64 number has at most 53 bits, and exactly 53
    above the smallest exponent. *)
Lemma bounded_digits m e :
  bounded prec emax m e = true ->
  -1074 <= e /\ Zpos (digits2_pos m) <= 53 /\
  (-1074 < e -> Zpos (digits2_pos m) = 53).
Proof.
  unfold bounded, canonical_mantissa, fexp, SpecFloat.emin, prec, emax.
  intros H. apply andb_true_iff in H as [H _]. apply Z.eqb_eq in H. lia.
Qed.

Lemma float_sub_nonneg (x y : float) :
  is_float x = true -> is_float y = true -> is_finite y = true ->
  nonnegative x = true ->
  float_le y float_zero = false -> float_gt y x = false ->
  nonnegative (float_sub x y) = true.
Proof.
  destruct x as [sx|[]| |[] mx ex], y as [sy|[]| |[] my ey];
    try discriminate; try reflexivity.
  intros Hx Hy _ _ _ Hgt.
  unfold float_sub, SFsub. apply binary_normalize_nonneg. cbn [cond_Zopp].
  unfold float_gt, SFcompare in Hgt.
  apply bounded_digits in Hx as (Hex & Hdx & Hnx).
  apply bounded_digits in Hy as (Hey & Hdy & Hny).
  pose proof (digits2_pos_bounds mx) as Hbx.
  pose proof (digits2_pos_bounds my) as Hby.
  unfold shl_align.
  destruct (Z.compare_spec ey ex) as [Heq|Hlt|Hgt'].
  - subst ey. rewrite Z.min_id, Z.sub_diag. cbn [fst].
    assert (Hle : (my <= mx)%positive).
    { unfold Pos.le, Pos.compare. intros Hc. rewrite Hc in Hgt. discriminate. }
    lia.
  - rewrite Z.min_r by lia. rewrite Z.sub_diag. cbn [fst].
    destruct (ey - ex) as [|d|d] eqn:Hd; try lia. cbn [fst].
    rewrite iter_xO_pow.
    assert (Hdig : Zpos (digits2_pos mx) = 53) by (apply Hnx; lia).
    rewrite Hdig in Hbx.
    assert (Hpow : 2 ^ 1 <= 2 ^ Zpos d) by (apply Z.pow_le_mono_r; lia).
    assert (Hmy : Zpos my < 2 ^ 53).
    { eapply Z.lt_le_trans; [apply Hby|]. apply Z.pow_le_mono_r; lia. }
    change (2 ^ 1) with 2 in Hpow.
    change (2 ^ (53 - 1)) with 4503599627370496 in Hbx.
    change (2 ^ 53) with 9007199254740992 in Hmy.
    nia.
  - discriminate.
Qed.

End Signs.

Lemma nonnegative_not_negative (x : float) :
  nonnegative x = true -> not_negative x = true.
Proof. destruct x as [sx|[]| |[] mx ex]; try discriminate; reflexivity. Qed.

Lemma not_negative_cases (x : float) :
  not_negative x = true -> x = S754_nan \/ nonnegative x = true.
Proof. destruct x as [sx|[]| |[] mx ex]; try discriminate; auto. Qed.

(** With NaN and the infinities let in, a sum and an accepted difference
    are still never below zero. *)
Lemma float_add_not_negative (x y : float) :
  not_negative x = true -> float_le y float_zero = false ->
  not_negative (float_add x y) = true.
Proof.
  intros Hx Hy.
  destruct (not_negative_cases x Hx) as [->|Hnn]; [reflexivity|].
  destruct y as [sy|[]| |[] my ey]; try discriminate.
  - now destruct x as [sx|[]| |[] mx ex].
  - now destruct x as [sx|[]| |[] mx ex].
  - apply nonnegative_not_negative, float_add_nonneg; [exact Hnn|reflexivity].
Qed.

Lemma float_sub_not_negative (x y : float) :
  is_float x = true -> is_float y = true ->
  not_negative x = true ->
  float_le y float_zero = false -> float_gt y x = false ->
  not_negative (float_sub x y) = true.
Proof.
  intros Hfx Hfy Hx Hy Hgt.
  destruct (not_negative_cases x Hx) as [->|Hnn]; [now destruct y|].
  destruct y as [sy|[]| |[] my ey]; try discriminate.
  - now destruct x as [sx|[]| |[] mx ex].
  - now destruct x as [sx|[]| |[] mx ex].
  - apply nonnegative_not_negative, float_sub_nonneg; auto.
Qed.

Lemma finite_positive_nonnegative (y : float) :
  is_finite y = true -> float_le y float_zero = false -> nonnegative y = true.
Proof. destruct y as [sy|[]| |[] my ey]; try discriminate; reflexivity. Qed.

(** ** Running the monad *)

Section Properties.
Context {Content : Type} {codec : Json Content} {text : Text}.
Implicit Types (s : State Content) (acct : Account) (accounts : Accounts).

Lemma get_account_found s acct_no acct :
  accts s !! acct_no = Some acct ->
  get_account acct_no s = Returned acct s.
Proof. intros H. unfold get_account. now rewrite H. Qed.

Lemma update_account_found s acct_no acct f :
  accts s !! acct_no = Some acct ->
  update_account acct_no f s =
  Returned tt (mkState (<[acct_no := f acct]> (accts s)) (files s)).
Proof.
  intros H. unfold update_account, bind. now rewrite (get_account_found _ _ _ H).
Qed.

Lemma add_transaction_found s acct_no acct tx_type amount remark now :
  accts s !! acct_no = Some acct ->
  add_transaction acct_no tx_type amount remark now s =
  Returned tt
    (mkState
       (<[acct_no :=
            with_appended (mkTransaction now tx_type amount remark (balance acct)) acct]>
          (accts s))
       (files s)).
Proof.
  intros H. unfold add_transaction, bind. now rewrite (get_account_found _ _ _ H).
Qed.

Lemma save_current s :
  (let* accounts := the_accounts in save_accounts accounts) s =
  Returned tt (saved (accts s) s).
Proof. reflexivity. Qed.

(** C3. A deposit of [d > 0] adds [d] to the balance and appends one
    ["Deposit"] entry of amount [d] that records the new balance; an amount
    that does not parse or is [<= 0] is refused as an invalid amount and the
    state stays as it was. *)
Theorem deposit_correct s acct_no acct now :
  accts s !! acct_no = Some acct ->
  (forall d, float_gt d float_zero = true ->
     let new_balance := float_add (balance acct) d in
     let entry := mkTransaction now "Deposit" d "Cash deposit" new_balance in
     deposit acct_no (Some d) now s =
     Returned (Deposited d new_balance)
       (saved
          (<[acct_no := mkAccount (name acct) (pin acct) new_balance
                          (transactions acct ++ [entry])]> (accts s))
          s))
  /\
  (forall parsed,
     parsed = None \/ (exists d, parsed = Some d /\ float_le d float_zero = true) ->
     exists m, deposit acct_no parsed now s = Returned m s /\
               error_of m = Some InvalidAmount).
Proof.
  intros Hacct. split.
  - intros d Hd new_balance entry.
    unfold deposit. rewrite (float_gt_not_le _ _ Hd).
    unfold bind at 1. rewrite (update_account_found _ _ _ _ Hacct).
    unfold bind at 1.
    erewrite add_transaction_found by (cbn; apply lookup_insert_eq).
    unfold bind at 1. rewrite save_current.
    unfold bind at 1.
    erewrite get_account_found by (cbn; apply lookup_insert_eq).
    cbn. rewrite insert_insert_eq. reflexivity.
  - intros parsed [->|(d & -> & Hd)].
    + exists Invalid_amount. split; reflexivity.
    + exists Amount_must_be_positive. unfold deposit. rewrite Hd.
      split; reflexivity.
Qed.

(** The path of [withdraw] past its checks. *)
Lemma withdraw_accepted s acct_no acct amt now :
  accts s !! acct_no = Some acct ->
  float_le amt float_zero = false ->
  float_gt amt (balance acct) = false ->
  withdraw acct_no (Some amt) now s =
  Returned (Withdrew amt (float_sub (balance acct) amt))
    (saved
       (<[acct_no :=
            mkAccount (name acct) (pin acct) (float_sub (balance acct) amt)
              (transactions acct ++
               [mkTransaction now "Withdrawal" amt "Cash withdrawal"
                  (float_sub (balance acct) amt)])]>
          (accts s))
       s).
Proof.
  intros Hacct Hpos Hle.
  unfold withdraw. rewrite Hpos.
  unfold bind at 1. rewrite (get_account_found _ _ _ Hacct). rewrite Hle.
  unfold bind at 1. rewrite (update_account_found _ _ _ _ Hacct).
  unfold bind at 1.
  erewrite add_transaction_found by (cbn; apply lookup_insert_eq).
  unfold bind at 1. rewrite save_current.
  unfold bind at 1.
  erewrite get_account_found by (cbn; apply lookup_insert_eq).
  cbn. rewrite insert_insert_eq. reflexivity.
Qed.

(** C1. A withdrawal of [w] with [0 < w <= balance] subtracts [w] from the
    balance and appends one ["Withdrawal"] entry of amount [w] that records
    the new balance; on a balance that is [>= 0], as the data model has it,
    a withdrawal of any [w] above the balance is refused for insufficient
    funds and the state stays as it was. *)
Theorem withdraw_correct s acct_no acct now :
  accts s !! acct_no = Some acct ->
  (forall w,
     float_lt float_zero w = true -> float_le w (balance acct) = true ->
     let new_balance := float_sub (balance acct) w in
     let entry := mkTransaction now "Withdrawal" w "Cash withdrawal" new_balance in
     withdraw acct_no (Some w) now s =
     Returned (Withdrew w new_balance)
       (saved
          (<[acct_no := mkAccount (name acct) (pin acct) new_balance
                          (transactions acct ++ [entry])]> (accts s))
          s))
  /\
  (nonnegative (balance acct) = true ->
   forall w,
     float_gt w (balance acct) = true ->
     withdraw acct_no (Some w) now s = Returned Insufficient_funds s /\
     error_of Insufficient_funds = Some InsufficientFunds).
Proof.
  intros Hacct. split.
  - intros w Hpos Hle new_balance entry.
    apply withdraw_accepted;
      [exact Hacct | apply float_pos_not_le, Hpos | apply float_le_not_gt, Hle].
  - intros Hbal w Hgt. split; [|reflexivity].
    unfold withdraw. rewrite (float_above_nonnegative _ _ Hbal Hgt).
    unfold bind at 1. rewrite (get_account_found _ _ _ Hacct).
    now rewrite Hgt.
Qed.

(** The path of [transfer] past its checks, between two accounts. *)
Lemma transfer_accepted s acct_no to_acct a b amt now_out now_in :
  accts s !! acct_no = Some a ->
  accts s !! to_acct = Some b ->
  acct_no <> to_acct ->
  float_le amt float_zero = false ->
  float_gt amt (balance a) = false ->
  transfer acct_no to_acct (Some amt) now_out now_in s =
  Returned (Transferred amt to_acct (float_sub (balance a) amt))
    (saved
       (<[to_acct :=
            mkAccount (name b) (pin b) (float_add (balance b) amt)
              (transactions b ++
               [mkTransaction now_in "Transfer In" amt ("From " ++ acct_no)
                  (float_add (balance b) amt)])]>
          (<[acct_no :=
               mkAccount (name a) (pin a) (float_sub (balance a) amt)
                 (transactions a ++
                  [mkTransaction now_out "Transfer Out" amt ("To " ++ to_acct)
                     (float_sub (balance a) amt)])]>
             (accts s)))
       s).
Proof.
  intros Ha Hb Hne Hpos Hle.
  unfold transfer, contains. unfold bind at 1. rewrite Hb.
  rewrite bool_decide_eq_true_2 by eauto. cbn [negb].
  rewrite Hpos.
  unfold bind at 1. rewrite (get_account_found _ _ _ Ha). rewrite Hle.
  unfold bind at 1. rewrite (update_account_found _ _ _ _ Ha).
  unfold bind at 1.
  erewrite update_account_found
    by (cbn; rewrite lookup_insert_ne by done; exact Hb).
  unfold bind at 1.
  erewrite add_transaction_found
    by (cbn; rewrite lookup_insert_ne by done; apply lookup_insert_eq).
  unfold bind at 1.
  erewrite add_transaction_found
    by (cbn; rewrite lookup_insert_ne by done; apply lookup_insert_eq).
  unfold bind at 1. rewrite save_current.
  unfold bind at 1.
  erewrite get_account_found
    by (cbn; rewrite lookup_insert_ne by done; apply lookup_insert_eq).
  cbn. f_equal. unfold saved. f_equal; [|f_equal; f_equal];
    (apply map_eq; intros k;
     destruct (decide (k = to_acct)) as [->|?];
       [|destruct (decide (k = acct_no)) as [->|?]];
     repeat first [rewrite lookup_insert_eq | rewrite lookup_insert_ne by done];
     reflexivity).
Qed.

(** The same path when the destination is the source. *)
Lemma self_transfer_accepted s acct_no a amt now_out now_in :
  accts s !! acct_no = Some a ->
  float_le amt float_zero = false ->
  float_gt amt (balance a) = false ->
  transfer acct_no acct_no (Some amt) now_out now_in s =
  Returned
    (Transferred amt acct_no (float_add (float_sub (balance a) amt) amt))
    (saved
       (<[acct_no :=
            mkAccount (name a) (pin a) (float_add (float_sub (balance a) amt) amt)
              (transactions a ++
               [mkTransaction now_out "Transfer Out" amt ("To " ++ acct_no)
                  (float_add (float_sub (balance a) amt) amt);
                mkTransaction now_in "Transfer In" amt ("From " ++ acct_no)
                  (float_add (float_sub (balance a) amt) amt)])]>
          (accts s))
       s).
Proof.
  intros Ha Hpos Hle.
  unfold transfer, contains. unfold bind at 1. rewrite Ha.
  rewrite bool_decide_eq_true_2 by eauto. cbn [negb].
  rewrite Hpos.
  unfold bind at 1. rewrite (get_account_found _ _ _ Ha). rewrite Hle.
  unfold bind at 1. rewrite (update_account_found _ _ _ _ Ha).
  do 3 (unfold bind at 1;
        first [erewrite update_account_found by (cbn; apply lookup_insert_eq)
              |erewrite add_transaction_found by (cbn; apply lookup_insert_eq)]).
  unfold bind at 1. rewrite save_current.
  unfold bind at 1.
  erewrite get_account_found by (cbn; apply lookup_insert_eq).
  cbn. rewrite !insert_insert_eq.
  unfold with_appended, with_balance; cbn. rewrite <- app_assoc. reflexivity.
Qed.

(** C2. A transfer of [t] with [0 < t <= balance] from an account to another
    one subtracts [t] from the source, adds [t] to the destination, and
    appends one ["Transfer Out"] entry to the source and one ["Transfer In"]
    entry to the destination, both of amount [t], each recording the balance
    its account has once both balances are updated; the store is saved
    once, afterwards. *)
Theorem transfer_correct s acct_no to_acct a b t now_out now_in :
  accts s !! acct_no = Some a ->
  accts s !! to_acct = Some b ->
  acct_no <> to_acct ->
  float_lt float_zero t = true ->
  float_le t (balance a) = true ->
  let a' :=
    mkAccount (name a) (pin a) (float_sub (balance a) t)
      (transactions a ++
       [mkTransaction now_out "Transfer Out" t ("To " ++ to_acct)
          (float_sub (balance a) t)]) in
  let b' :=
    mkAccount (name b) (pin b) (float_add (balance b) t)
      (transactions b ++
       [mkTransaction now_in "Transfer In" t ("From " ++ acct_no)
          (float_add (balance b) t)]) in
  transfer acct_no to_acct (Some t) now_out now_in s =
  Returned (Transferred t to_acct (balance a'))
    (saved (<[to_acct := b']> (<[acct_no := a']> (accts s))) s).
Proof.
  intros Ha Hb Hne Hpos Hle a' b'.
  apply transfer_accepted; try assumption.
  - apply float_pos_not_le, Hpos.
  - apply float_le_not_gt, Hle.
Qed.

(** C10, as amended. A transfer of [t] with [0 < t <= balance] from an
    account to itself is accepted; the balance becomes [(balance - t) + t]
    in floating-point arithmetic, and a ["Transfer Out"] and a
    ["Transfer In"] entry of amount [t], both recording that balance, are
    appended to the account's ledger in this order. *)
Theorem self_transfer_correct s acct_no a t now_out now_in :
  accts s !! acct_no = Some a ->
  float_lt float_zero t = true ->
  float_le t (balance a) = true ->
  let new_balance := float_add (float_sub (balance a) t) t in
  transfer acct_no acct_no (Some t) now_out now_in s =
  Returned (Transferred t acct_no new_balance)
    (saved
       (<[acct_no :=
            mkAccount (name a) (pin a) new_balance
              (transactions a ++
               [mkTransaction now_out "Transfer Out" t ("To " ++ acct_no) new_balance;
                mkTransaction now_in "Transfer In" t ("From " ++ acct_no) new_balance])]>
          (accts s))
       s).
Proof.
  intros Ha Hpos Hle new_balance.
  apply self_transfer_accepted;
    [exact Ha | apply float_pos_not_le, Hpos | apply float_le_not_gt, Hle].
Qed.

(** C6. [change_pin] stores the new PIN exactly when the current PIN typed
    is the stored one, the new PIN and its confirmation agree, and the new
    PIN is all digits, as [str.isdigit] decides, and at least 4 long, as
    [len] counts; it then appends one
    ["PIN Change"] entry of amount 0. Otherwise the state stays as it was,
    and the first failing check, in the order current PIN, confirmation,
    strength, names the error. *)
Theorem change_pin_correct s acct_no acct old new confirm now :
  accts s !! acct_no = Some acct ->
  let accepted :=
    old = pin acct /\ new = confirm /\ isdigit new = true /\ (4 <= len new)%nat in
  (accepted ->
     change_pin acct_no old new confirm now s =
     Returned PIN_changed
       (saved
          (<[acct_no :=
               mkAccount (name acct) new (balance acct)
                 (transactions acct ++
                  [mkTransaction now "PIN Change" float_zero "PIN updated"
                     (balance acct)])]>
             (accts s))
          s))
  /\ (old <> pin acct ->
        change_pin acct_no old new confirm now s = Returned Current_PIN_incorrect s)
  /\ (old = pin acct -> new <> confirm ->
        change_pin acct_no old new confirm now s = Returned PIN_mismatch s)
  /\ (old = pin acct -> new = confirm ->
        isdigit new = false \/ (len new < 4)%nat ->
        change_pin acct_no old new confirm now s = Returned PIN_must_be_numeric s)
  /\ ((exists s', change_pin acct_no old new confirm now s = Returned PIN_changed s')
        <-> accepted).
Proof.
  intros Hacct accepted.
  assert (Hok : accepted ->
    change_pin acct_no old new confirm now s =
    Returned PIN_changed
      (saved
         (<[acct_no :=
              mkAccount (name acct) new (balance acct)
                (transactions acct ++
                 [mkTransaction now "PIN Change" float_zero "PIN updated"
                    (balance acct)])]>
            (accts s))
         s)).
  { intros (Hold & Hconf & Hdig & Hlen).
    unfold change_pin. unfold bind at 1. rewrite (get_account_found _ _ _ Hacct).
    rewrite bool_decide_eq_false_2 by (intros Hn; apply Hn, Hold).
    rewrite bool_decide_eq_false_2 by (intros Hn; apply Hn, Hconf).
    rewrite Hdig. cbn [negb orb].
    replace (len new <? 4)%nat with false
      by (symmetry; apply Nat.ltb_ge, Hlen).
    unfold bind at 1. rewrite (update_account_found _ _ _ _ Hacct).
    unfold bind at 1.
    erewrite add_transaction_found by (cbn; apply lookup_insert_eq).
    unfold bind at 1. rewrite save_current.
    cbn. rewrite insert_insert_eq. reflexivity. }
  assert (Hwrong : old <> pin acct ->
    change_pin acct_no old new confirm now s = Returned Current_PIN_incorrect s).
  { intros Hold.
    unfold change_pin. unfold bind at 1. rewrite (get_account_found _ _ _ Hacct).
    now rewrite bool_decide_eq_true_2 by exact Hold. }
  assert (Hmis : old = pin acct -> new <> confirm ->
    change_pin acct_no old new confirm now s = Returned PIN_mismatch s).
  { intros Hold Hconf.
    unfold change_pin. unfold bind at 1. rewrite (get_account_found _ _ _ Hacct).
    rewrite bool_decide_eq_false_2 by (intros Hn; apply Hn, Hold).
    now rewrite bool_decide_eq_true_2 by exact Hconf. }
  assert (Hweak : old = pin acct -> new = confirm ->
    isdigit new = false \/ (len new < 4)%nat ->
    change_pin acct_no old new confirm now s = Returned PIN_must_be_numeric s).
  { intros Hold Hconf Hbad.
    unfold change_pin. unfold bind at 1. rewrite (get_account_found _ _ _ Hacct).
    rewrite bool_decide_eq_false_2 by (intros Hn; apply Hn, Hold).
    rewrite bool_decide_eq_false_2 by (intros Hn; apply Hn, Hconf).
    replace (negb (isdigit new) || (len new <? 4)%nat) with true; [reflexivity|].
    symmetry. destruct Hbad as [->|Hlen]; [reflexivity|].
    apply orb_true_iff. right. apply Nat.ltb_lt, Hlen. }
  split; [exact Hok|]. split; [exact Hwrong|].
  split; [exact Hmis|]. split; [exact Hweak|]. split.
  - intros [s' Hrun].
    destruct (decide (old = pin acct)) as [Hold|Hold];
      [|rewrite (Hwrong Hold) in Hrun; discriminate].
    destruct (decide (new = confirm)) as [Hconf|Hconf];
      [|rewrite (Hmis Hold Hconf) in Hrun; discriminate].
    destruct (isdigit new) eqn:Hdig;
      [|rewrite (Hweak Hold Hconf (or_introl eq_refl)) in Hrun; discriminate].
    destruct (le_lt_dec 4 (len new)) as [Hlen|Hlen];
      [|rewrite (Hweak Hold Hconf (or_intror Hlen)) in Hrun; discriminate].
    unfold accepted. auto.
  - intros Hacc. eexists. apply (Hok Hacc).
Qed.

(** C9. [create_account] on an account number already in the store returns
    the failure ["Account already exists."] and leaves the state as it was;
    on a new number it inserts the account with the fields given (balance
    0.0 when none is given) and one ["Account Created"] entry of amount 0,
    then saves the store. *)
Theorem create_account_correct s acct_no nm p initial_balance now :
  (is_Some (accts s !! acct_no) ->
     create_account acct_no nm p initial_balance now s =
     Returned (false, "Account already exists.") s /\
     error_of_created (false, "Account already exists.") = Some AlreadyExists)
  /\
  (accts s !! acct_no = None ->
     let b := default float_zero initial_balance in
     create_account acct_no nm p initial_balance now s =
     Returned (true, "Account created.")
       (saved
          (<[acct_no :=
               mkAccount nm p b
                 [mkTransaction now "Account Created" float_zero
                    "Initial account setup" b]]>
             (accts s))
          s)).
Proof.
  split.
  - intros Hin. split; [|reflexivity].
    unfold create_account, contains. unfold bind at 1.
    now rewrite bool_decide_eq_true_2 by exact Hin.
  - intros Hnone b.
    unfold create_account, contains. unfold bind at 1.
    rewrite bool_decide_eq_false_2 by (rewrite Hnone; apply is_Some_None).
    unfold bind at 1, set_account at 1.
    unfold bind at 1.
    erewrite add_transaction_found by (cbn; apply lookup_insert_eq).
    unfold bind at 1. rewrite save_current.
    cbn. rewrite insert_insert_eq. reflexivity.
Qed.

(** What the program adds to the library's codec: [save_accounts]
    overwrites the one file that [load_accounts] reads. So, if [json.load]
    reads back what [json.dump] wrote, [load_accounts] right after
    [save_accounts(accounts)] returns [accounts], whatever the file held
    before. Whether the library has this round trip is not decided here:
    the rendering and the parsing of JSON text are not code of this
    program. *)
Lemma save_then_load s accounts :
  json_roundtrips codec ->
  (save_accounts accounts >> load_accounts) s =
  Returned accounts
    (mkState (accts s) (<[ACCOUNTS_FILE := json_dump accounts]> (files s))).
Proof.
  intros Hrt.
  unfold save_accounts, load_accounts, write_file, read_file, bind. cbn.
  rewrite lookup_insert_eq, Hrt. reflexivity.
Qed.

(** Without a snapshot on disk, [load_accounts] returns the empty mapping. *)
Lemma load_without_file s :
  files s !! ACCOUNTS_FILE = None ->
  load_accounts s = Returned ∅ s.
Proof.
  intros Hnone. unfold load_accounts, read_file, bind. now rewrite Hnone.
Qed.

(** ** Failed validations *)

Ltac run_all :=
  unfold deposit, withdraw, transfer, change_pin, create_account,
    add_transaction, update_account, save_accounts, the_accounts, contains,
    get_account, set_account, write_file, bind, ret in *.

Ltac split_paths :=
  repeat (case_match; simplify_eq /=; try done).

Lemma create_account_error s s' acct_no nm p initial_balance now r :
  create_account acct_no nm p initial_balance now s = Returned r s' ->
  fst r = false -> s' = s.
Proof. run_all. intros Hrun Herr. split_paths. Qed.

Lemma deposit_error s s' acct_no parsed now m :
  deposit acct_no parsed now s = Returned m s' ->
  is_Some (error_of m) -> s' = s.
Proof. run_all. intros Hrun [e Herr]. split_paths. Qed.

Lemma withdraw_error s s' acct_no parsed now m :
  withdraw acct_no parsed now s = Returned m s' ->
  is_Some (error_of m) -> s' = s.
Proof. run_all. intros Hrun [e Herr]. split_paths. Qed.

Lemma transfer_error s s' acct_no to_acct parsed now_out now_in m :
  transfer acct_no to_acct parsed now_out now_in s = Returned m s' ->
  is_Some (error_of m) -> s' = s.
Proof. run_all. intros Hrun [e Herr]. split_paths. Qed.

Lemma change_pin_error s s' acct_no old new confirm now m :
  change_pin acct_no old new confirm now s = Returned m s' ->
  is_Some (error_of m) -> s' = s.
Proof. run_all. intros Hrun [e Herr]. split_paths. Qed.

(** C7. Whichever operation it is and whatever was typed, when the call
    reports a validation error the state it leaves is the state it found:
    the dictionary of accounts and the files on disk are both untouched. *)
Theorem validation_error_changes_nothing (o : operation) s s' e :
  run o s = Returned (Some e) s' -> s' = s.
Proof.
  destruct o; unfold run, bind; intros Hrun.
  - destruct (create_account _ _ _ _ _ s) as [r s1|] eqn:Hop; [|discriminate].
    unfold ret in Hrun. injection Hrun as Herr ->.
    apply (create_account_error _ _ _ _ _ _ _ _ Hop).
    unfold error_of_created in Herr. now destruct (fst r).
  - destruct (deposit _ _ _ s) as [m s1|] eqn:Hop; [|discriminate].
    unfold ret in Hrun. injection Hrun as Herr ->.
    apply (deposit_error _ _ _ _ _ _ Hop). rewrite Herr. eauto.
  - destruct (withdraw _ _ _ s) as [m s1|] eqn:Hop; [|discriminate].
    unfold ret in Hrun. injection Hrun as Herr ->.
    apply (withdraw_error _ _ _ _ _ _ Hop). rewrite Herr. eauto.
  - destruct (transfer _ _ _ _ _ s) as [m s1|] eqn:Hop; [|discriminate].
    unfold ret in Hrun. injection Hrun as Herr ->.
    apply (transfer_error _ _ _ _ _ _ _ _ Hop). rewrite Herr. eauto.
  - destruct (change_pin _ _ _ _ _ s) as [m s1|] eqn:Hop; [|discriminate].
    unfold ret in Hrun. injection Hrun as Herr ->.
    apply (change_pin_error _ _ _ _ _ _ _ _ Hop). rewrite Herr. eauto.
Qed.

(** ** Invariants along a computation *)

Lemma preserves_ret {A} (P : State Content -> Prop) (a : A) :
  preserves P (ret a).
Proof. intros s Hs. exact Hs. Qed.

Lemma preserves_bind {A B} (P : State Content -> Prop)
    (m : M Content A) (k : A -> M Content B) :
  preserves P m -> (forall a, preserves P (k a)) -> preserves P (bind m k).
Proof.
  intros Hm Hk s Hs. unfold bind.
  specialize (Hm s Hs). destruct (m s) as [a s1|e s1]; cbn in Hm.
  - apply Hk, Hm.
  - exact Hm.
Qed.

Lemma preserves_if {A} (P : State Content -> Prop) (c : bool)
    (m1 m2 : M Content A) :
  (c = true -> preserves P m1) -> (c = false -> preserves P m2) ->
  preserves P (if c then m1 else m2).
Proof. destruct c; auto. Qed.

Lemma preserves_get_account (P : State Content -> Prop) acct_no :
  preserves P (get_account acct_no).
Proof. intros s Hs. unfold get_account. now destruct (accts s !! acct_no). Qed.

Lemma preserves_contains (P : State Content -> Prop) acct_no :
  preserves P (contains acct_no).
Proof. intros s Hs. exact Hs. Qed.

(** An invariant of the dictionary alone survives a save. *)
Lemma preserves_save (Q : Accounts -> Prop) :
  preserves (fun s => Q (accts s))
    (let* accounts := the_accounts in save_accounts accounts).
Proof. intros s Hs. exact Hs. Qed.

(** *** PINs *)

Lemma pins_set_account acct_no acct :
  pin_ok (pin acct) = true -> preserves (pins_inv (Content := Content)) (set_account acct_no acct).
Proof.
  intros Hpin s Hs k a. cbn.
  destruct (decide (k = acct_no)) as [->|Hne].
  - rewrite lookup_insert_eq. now intros [= <-].
  - rewrite lookup_insert_ne by done. apply Hs.
Qed.

Lemma pins_update_account acct_no (f : Account -> Account) :
  (forall a, pin_ok (pin a) = true -> pin_ok (pin (f a)) = true) ->
  preserves (pins_inv (Content := Content)) (update_account acct_no f).
Proof.
  intros Hf s Hs. unfold update_account, bind, get_account.
  destruct (accts s !! acct_no) as [a|] eqn:Ha; [|exact Hs].
  apply pins_set_account; [|exact Hs]. apply Hf, (Hs _ _ Ha).
Qed.

Lemma pins_add_transaction acct_no tx_type amount remark now :
  preserves (pins_inv (Content := Content)) (add_transaction acct_no tx_type amount remark now).
Proof.
  intros s Hs. unfold add_transaction, bind, get_account.
  destruct (accts s !! acct_no) as [a|] eqn:Ha; [|exact Hs].
  apply pins_set_account; [|exact Hs]. apply (Hs _ _ Ha).
Qed.

Lemma pins_balance_update acct_no (g : float -> float) :
  preserves (pins_inv (Content := Content))
    (update_account acct_no (fun a => with_balance (g (balance a)) a)).
Proof. apply pins_update_account. auto. Qed.

Lemma pins_run (o : operation) :
  creates_with_pin_ok o -> preserves (pins_inv (Content := Content)) (run o).
Proof.
  destruct o; cbn [creates_with_pin_ok run]; intros Hpin;
    apply preserves_bind; try (intros; apply preserves_ret).
  - unfold create_account.
    apply preserves_bind; [apply preserves_contains|]. intros present.
    apply preserves_if; intros _; [apply preserves_ret|].
    apply preserves_bind; [now apply pins_set_account|]. intros _.
    apply preserves_bind; [apply pins_add_transaction|]. intros _.
    apply preserves_bind; [apply (preserves_save pins_ok)|]. intros _.
    apply preserves_ret.
  - unfold deposit. destruct parsed as [amt|]; [|apply preserves_ret].
    apply preserves_if; intros _; [apply preserves_ret|].
    apply preserves_bind; [apply (pins_balance_update _ (fun b => float_add b amt))|].
    intros _.
    apply preserves_bind; [apply pins_add_transaction|]. intros _.
    apply preserves_bind; [apply (preserves_save pins_ok)|]. intros _.
    apply preserves_bind; [apply preserves_get_account|]. intros acct.
    apply preserves_ret.
  - unfold withdraw. destruct parsed as [amt|]; [|apply preserves_ret].
    apply preserves_if; intros _; [apply preserves_ret|].
    apply preserves_bind; [apply preserves_get_account|]. intros acct.
    apply preserves_if; intros _; [apply preserves_ret|].
    apply preserves_bind; [apply (pins_balance_update _ (fun b => float_sub b amt))|].
    intros _.
    apply preserves_bind; [apply pins_add_transaction|]. intros _.
    apply preserves_bind; [apply (preserves_save pins_ok)|]. intros _.
    apply preserves_bind; [apply preserves_get_account|]. intros acct'.
    apply preserves_ret.
  - unfold transfer.
    apply preserves_bind; [apply preserves_contains|]. intros present.
    apply preserves_if; intros _; [apply preserves_ret|].
    destruct parsed as [amt|]; [|apply preserves_ret].
    apply preserves_if; intros _; [apply preserves_ret|].
    apply preserves_bind; [apply preserves_get_account|]. intros acct.
    apply preserves_if; intros _; [apply preserves_ret|].
    apply preserves_bind; [apply (pins_balance_update _ (fun b => float_sub b amt))|].
    intros _.
    apply preserves_bind; [apply (pins_balance_update _ (fun b => float_add b amt))|].
    intros _.
    apply preserves_bind; [apply pins_add_transaction|]. intros _.
    apply preserves_bind; [apply pins_add_transaction|]. intros _.
    apply preserves_bind; [apply (preserves_save pins_ok)|]. intros _.
    apply preserves_bind; [apply preserves_get_account|]. intros acct'.
    apply preserves_ret.
  - unfold change_pin.
    apply preserves_bind; [apply preserves_get_account|]. intros acct.
    apply preserves_if; intros _; [apply preserves_ret|].
    apply preserves_if; intros _; [apply preserves_ret|].
    apply preserves_if; intros Hchk; [apply preserves_ret|].
    apply orb_false_iff in Hchk as [Hdig Hlen].
    apply negb_false_iff in Hdig. apply Nat.ltb_ge in Hlen.
    apply preserves_bind.
    { apply pins_update_account. intros a _.
      unfold with_pin, pin_ok. cbn [pin]. rewrite Hdig.
      apply andb_true_iff. split; [reflexivity|]. now apply Nat.leb_le. }
    intros _.
    apply preserves_bind; [apply pins_add_transaction|]. intros _.
    apply preserves_bind; [apply (preserves_save pins_ok)|]. intros _.
    apply preserves_ret.
Qed.

(** C5, as amended. [create_account] stores the PIN it is given and
    [change_pin] only ever stores a string of digits of length at least 4:
    along any sequence of operations whose account creations are given such
    a PIN, every account's PIN is a string of digits of length at least 4. *)
Theorem pins_stay_ok (ops : list operation) s :
  pins_ok (accts s) ->
  Forall creates_with_pin_ok ops ->
  pins_ok (accts (after_all ops s)).
Proof.
  intros Hs Hops. revert s Hs.
  induction Hops as [|o ops Ho _ IH]; intros s Hs; cbn.
  - exact Hs.
  - apply IH. apply (pins_run o Ho s Hs).
Qed.

(** *** Balances *)

Lemma final_state_bind_ret {A B} (m : M Content A) (f : A -> B) s :
  final_state (bind m (fun a => ret (f a)) s) = final_state (m s).
Proof. unfold bind. now destruct (m s). Qed.

(** A withdrawal or a transfer keeps a property [good] of the balances
    when the balances start from [pre], the amount satisfies [amt_ok], and
    the two updates of the accepted path lead into [good]. *)
Lemma money_out_keeps (pre good amt_ok : float -> Prop) :
  (forall b, pre b -> good b) ->
  (forall b amt, pre b -> amt_ok amt ->
     float_le amt float_zero = false -> float_gt amt b = false ->
     good (float_sub b amt)) ->
  (forall b amt, good b -> amt_ok amt ->
     float_le amt float_zero = false -> good (float_add b amt)) ->
  forall (o : operation) s,
    moves_money_out o -> amount_satisfies amt_ok o ->
    balances_satisfy pre (accts s) ->
    balances_satisfy good (accts (after o s)).
Proof.
  intros Hpre Hsub Hadd o s Hop Hamt Hs.
  assert (Hgood : balances_satisfy good (accts s))
    by (intros k a Hk; apply Hpre, (Hs k a Hk)).
  assert (Hins : forall accounts k a,
            balances_satisfy good accounts -> good (balance a) ->
            balances_satisfy good (<[k := a]> accounts)).
  { intros accounts k a Hacc Ha k' a'.
    destruct (decide (k' = k)) as [->|Hne].
    - rewrite lookup_insert_eq. now intros [= <-].
    - rewrite lookup_insert_ne by done. apply Hacc. }
  destruct o as [| |acct_no parsed now|acct_no to_acct parsed now_out now_in|];
    try contradiction; unfold after, run; rewrite final_state_bind_ret.
  - (* withdraw *)
    destruct parsed as [amt|]; [|exact Hgood]. cbn in Hamt.
    destruct (float_le amt float_zero) eqn:Hle0.
    { unfold withdraw. rewrite Hle0. exact Hgood. }
    destruct (accts s !! acct_no) as [acct|] eqn:Hacct.
    2:{ unfold withdraw. rewrite Hle0. unfold bind, get_account.
        rewrite Hacct. exact Hgood. }
    destruct (float_gt amt (balance acct)) eqn:Hgt.
    { unfold withdraw. rewrite Hle0. unfold bind at 1.
      rewrite (get_account_found _ _ _ Hacct), Hgt. exact Hgood. }
    rewrite (withdraw_accepted _ _ _ _ _ Hacct Hle0 Hgt). cbn.
    apply Hins; [exact Hgood|]. cbn.
    apply Hsub; auto. apply (Hs _ _ Hacct).
  - (* transfer *)
    destruct (accts s !! to_acct) as [b|] eqn:Hb.
    2:{ unfold transfer, contains. unfold bind at 1. rewrite Hb.
        rewrite bool_decide_eq_false_2 by apply is_Some_None. exact Hgood. }
    assert (Hin : bool_decide (is_Some (accts s !! to_acct)) = true)
      by (apply bool_decide_eq_true_2; rewrite Hb; eauto).
    destruct parsed as [amt|].
    2:{ unfold transfer, contains. unfold bind at 1. rewrite Hin. exact Hgood. }
    cbn in Hamt.
    destruct (float_le amt float_zero) eqn:Hle0.
    { unfold transfer, contains. unfold bind at 1. rewrite Hin. cbn [negb].
      rewrite Hle0. exact Hgood. }
    destruct (accts s !! acct_no) as [a|] eqn:Ha.
    2:{ unfold transfer, contains. unfold bind at 1. rewrite Hin. cbn [negb].
        rewrite Hle0. unfold bind, get_account. rewrite Ha. exact Hgood. }
    destruct (float_gt amt (balance a)) eqn:Hgt.
    { unfold transfer, contains. unfold bind at 1. rewrite Hin. cbn [negb].
      rewrite Hle0. unfold bind at 1.
      rewrite (get_account_found _ _ _ Ha), Hgt. exact Hgood. }
    pose proof (Hsub _ _ (Hs _ _ Ha) Hamt Hle0 Hgt) as Hout.
    destruct (decide (acct_no = to_acct)) as [<-|Hne].
    + rewrite (self_transfer_accepted _ _ _ _ _ _ Ha Hle0 Hgt). cbn.
      apply Hins; [exact Hgood|]. cbn. now apply Hadd.
    + rewrite (transfer_accepted _ _ _ _ _ _ _ _ Ha Hb Hne Hle0 Hgt). cbn.
      apply Hins; [apply Hins; [exact Hgood|exact Hout]|].
      cbn. apply Hadd; auto. apply Hpre, (Hs _ _ Hb).
Qed.

(** X25. What C4 asks, for the amounts that are numbers: on a store whose
    balances are binary64 numbers [>= 0], a withdrawal or a transfer of a
    finite amount, accepted or refused, leaves every balance [>= 0]. *)
Theorem finite_amounts_keep_balances_nonnegative (o : operation) s :
  moves_money_out o -> finite_amount o ->
  balances_sound (accts s) ->
  balances_nonnegative (accts (after o s)).
Proof.
  apply (money_out_keeps
           (fun b => is_float b = true /\ nonnegative b = true)
           (fun b => nonnegative b = true)
           (fun amt => is_float amt = true /\ is_finite amt = true)).
  - now intros b [_ Hb].
  - intros b amt [Hbf Hbn] [Haf Hfin] Hle0 Hgt. now apply float_sub_nonneg.
  - intros b amt Hb [Haf Hfin] Hle0.
    apply float_add_nonneg; [exact Hb|].
    now apply finite_positive_nonnegative.
Qed.

(** X26. For every amount, NaN and the infinities included: no balance is
    ever below zero after a withdrawal or a transfer, though it may be
    NaN. *)
Theorem balances_never_below_zero (o : operation) s :
  moves_money_out o ->
  amount_satisfies (fun amt => is_float amt = true) o ->
  balances_satisfy (fun b => is_float b = true /\ not_negative b = true) (accts s) ->
  balances_satisfy (fun b => not_negative b = true) (accts (after o s)).
Proof.
  apply (money_out_keeps
           (fun b => is_float b = true /\ not_negative b = true)
           (fun b => not_negative b = true)
           (fun amt => is_float amt = true)).
  - now intros b [_ Hb].
  - intros b amt [Hbf Hbn] Haf Hle0 Hgt. now apply float_sub_not_negative.
  - intros b amt Hb _ Hle0. now apply float_add_not_negative.
Qed.

End Properties.

(** * The operations on sample stores *)

Section Samples.
Existing Instance snapshot_json.
Existing Instance ascii_text.

Lemma demo_accounts :
  accts demo_state = <["1002" := bob]> (<["1001" := alice]> ∅).
Proof. vm_compute. reflexivity. Qed.

Lemma demo_balances_nonnegative : balances_nonnegative (accts demo_state).
Proof.
  intros k a. rewrite demo_accounts. intros H.
  apply lookup_insert_Some in H as [[_ <-]|[_ H]]; [reflexivity|].
  apply lookup_insert_Some in H as [[_ <-]|[_ H]]; [reflexivity|].
  rewrite lookup_empty in H. discriminate.
Qed.

(** ** The scenarios of the specification *)

(** Account "1001" with 5000.00, deposit of 200.00: the balance is 5200.00
    and the ledger has two entries, the second a deposit of 200 recording
    5200. *)
Example scenario_deposit :
  (fun a => (balance a, transactions a)) <$>
    accts (after (Deposit "1001" (Some (float_of_Z 200)) "2025-01-02 10:00:00")
             demo_state) !! "1001" =
  Some (float_of_Z 5200,
        (transactions alice ++
         [mkTransaction "2025-01-02 10:00:00" "Deposit" (float_of_Z 200)
            "Cash deposit" (float_of_Z 5200)])%list).
Proof. vm_compute. reflexivity. Qed.

(** Withdrawing 6000.00 from 5000.00 is refused and changes nothing. *)
Example scenario_withdraw_too_much :
  withdraw "1001" (Some (float_of_Z 6000)) "2025-01-02 10:05:00" demo_state =
  Returned Insufficient_funds demo_state.
Proof. vm_compute. reflexivity. Qed.

(** Transferring 100.00 from "1001" (5000.00) to "1002" (3000.00). *)
Example scenario_transfer :
  let s' :=
    after (Transfer "1001" "1002" (Some (float_of_Z 100))
             "2025-01-02 10:10:00" "2025-01-02 10:10:00") demo_state in
  (balance <$> accts s' !! "1001", balance <$> accts s' !! "1002") =
  (Some (float_of_Z 4900), Some (float_of_Z 3100)) /\
  (length ∘ transactions <$> accts s' !! "1001",
   length ∘ transactions <$> accts s' !! "1002") = (Some 2%nat, Some 2%nat).
Proof. vm_compute. split; reflexivity. Qed.

(** ** Instances of the theorems *)

Lemma deposit_correct_witness :
  accts demo_state !! "1001" = Some alice /\
  float_gt (float_of_Z 200) float_zero = true /\
  deposit "1001" (Some (float_of_Z 200)) "2025-01-02 10:00:00" demo_state =
  Returned (Deposited (float_of_Z 200) (float_add (balance alice) (float_of_Z 200)))
    (saved
       (<["1001" :=
            mkAccount "Alice" "1234" (float_add (balance alice) (float_of_Z 200))
              (transactions alice ++
               [mkTransaction "2025-01-02 10:00:00" "Deposit" (float_of_Z 200)
                  "Cash deposit" (float_add (balance alice) (float_of_Z 200))])]>
          (accts demo_state))
       demo_state).
Proof.
  assert (H : accts demo_state !! "1001" = Some alice) by (vm_compute; reflexivity).
  split; [exact H|]. split; [reflexivity|].
  apply (proj1 (deposit_correct demo_state "1001" alice "2025-01-02 10:00:00" H)).
  reflexivity.
Defined.

Lemma withdraw_correct_witness :
  accts demo_state !! "1001" = Some alice /\
  (float_lt float_zero (float_of_Z 300) = true /\
   float_le (float_of_Z 300) (balance alice) = true /\
   withdraw "1001" (Some (float_of_Z 300)) "2025-01-02 10:00:00" demo_state =
   Returned (Withdrew (float_of_Z 300) (float_sub (balance alice) (float_of_Z 300)))
     (saved
        (<["1001" :=
             mkAccount "Alice" "1234" (float_sub (balance alice) (float_of_Z 300))
               (transactions alice ++
                [mkTransaction "2025-01-02 10:00:00" "Withdrawal" (float_of_Z 300)
                   "Cash withdrawal" (float_sub (balance alice) (float_of_Z 300))])]>
           (accts demo_state))
        demo_state)) /\
  (nonnegative (balance alice) = true /\
   float_gt (float_of_Z 6000) (balance alice) = true /\
   withdraw "1001" (Some (float_of_Z 6000)) "2025-01-02 10:00:00" demo_state =
   Returned Insufficient_funds demo_state).
Proof.
  assert (H : accts demo_state !! "1001" = Some alice) by (vm_compute; reflexivity).
  split; [exact H|]. split.
  - split; [reflexivity|]. split; [reflexivity|].
    apply (proj1 (withdraw_correct demo_state "1001" alice "2025-01-02 10:00:00" H));
      reflexivity.
  - split; [reflexivity|]. split; [reflexivity|].
    apply (proj2 (withdraw_correct demo_state "1001" alice "2025-01-02 10:00:00" H));
      reflexivity.
Defined.

Lemma transfer_correct_witness :
  transfer "1001" "1002" (Some (float_of_Z 100))
    "2025-01-02 10:10:00" "2025-01-02 10:10:01" demo_state =
  Returned (Transferred (float_of_Z 100) "1002" (float_sub (balance alice) (float_of_Z 100)))
    (saved
       (<["1002" :=
            mkAccount "Bob" "2345" (float_add (balance bob) (float_of_Z 100))
              (transactions bob ++
               [mkTransaction "2025-01-02 10:10:01" "Transfer In" (float_of_Z 100)
                  "From 1001" (float_add (balance bob) (float_of_Z 100))])]>
          (<["1001" :=
               mkAccount "Alice" "1234" (float_sub (balance alice) (float_of_Z 100))
                 (transactions alice ++
                  [mkTransaction "2025-01-02 10:10:00" "Transfer Out" (float_of_Z 100)
                     "To 1002" (float_sub (balance alice) (float_of_Z 100))])]>
             (accts demo_state)))
       demo_state).
Proof.
  apply (transfer_correct demo_state "1001" "1002" alice bob (float_of_Z 100)).
  - vm_compute. reflexivity.
  - vm_compute. reflexivity.
  - discriminate.
  - reflexivity.
  - reflexivity.
Defined.

Lemma self_transfer_correct_witness :
  transfer "1001" "1001" (Some (float_of_Z 100))
    "2025-01-02 10:10:00" "2025-01-02 10:10:01" demo_state =
  Returned
    (Transferred (float_of_Z 100) "1001"
       (float_add (float_sub (balance alice) (float_of_Z 100)) (float_of_Z 100)))
    (saved
       (<["1001" :=
            mkAccount "Alice" "1234"
              (float_add (float_sub (balance alice) (float_of_Z 100)) (float_of_Z 100))
              (transactions alice ++
               [mkTransaction "2025-01-02 10:10:00" "Transfer Out" (float_of_Z 100)
                  "To 1001"
                  (float_add (float_sub (balance alice) (float_of_Z 100)) (float_of_Z 100));
                mkTransaction "2025-01-02 10:10:01" "Transfer In" (float_of_Z 100)
                  "From 1001"
                  (float_add (float_sub (balance alice) (float_of_Z 100)) (float_of_Z 100))])]>
          (accts demo_state))
       demo_state).
Proof.
  apply (self_transfer_correct demo_state "1001" alice (float_of_Z 100)).
  - vm_compute. reflexivity.
  - reflexivity.
  - reflexivity.
Defined.

Lemma change_pin_correct_witness :
  change_pin "1001" "1234" "4321" "4321" "2025-01-02 10:20:00" demo_state =
  Returned PIN_changed
    (saved
       (<["1001" :=
            mkAccount "Alice" "4321" (balance alice)
              (transactions alice ++
               [mkTransaction "2025-01-02 10:20:00" "PIN Change" float_zero
                  "PIN updated" (balance alice)])]>
          (accts demo_state))
       demo_state) /\
  change_pin "1001" "0000" "4321" "4322" "2025-01-02 10:20:00" demo_state =
  Returned Current_PIN_incorrect demo_state /\
  change_pin "1001" "1234" "4321" "4322" "2025-01-02 10:20:00" demo_state =
  Returned PIN_mismatch demo_state /\
  change_pin "1001" "1234" "43a1" "43a1" "2025-01-02 10:20:00" demo_state =
  Returned PIN_must_be_numeric demo_state.
Proof.
  assert (H : accts demo_state !! "1001" = Some alice) by (vm_compute; reflexivity).
  split; [|split; [|split]].
  - apply (proj1 (change_pin_correct demo_state "1001" alice "1234" "4321" "4321"
                    "2025-01-02 10:20:00" H)).
    cbn. repeat split; lia.
  - apply (proj1 (proj2 (change_pin_correct demo_state "1001" alice "0000" "4321" "4322"
                           "2025-01-02 10:20:00" H))).
    discriminate.
  - apply (proj1 (proj2 (proj2 (change_pin_correct demo_state "1001" alice "1234"
                                  "4321" "4322" "2025-01-02 10:20:00" H))));
      [reflexivity|discriminate].
  - apply (proj1 (proj2 (proj2 (proj2 (change_pin_correct demo_state "1001" alice
                                         "1234" "43a1" "43a1"
                                         "2025-01-02 10:20:00" H)))));
      [reflexivity|reflexivity|left; reflexivity].
Defined.

Lemma create_account_correct_witness :
  create_account "1001" "Mallory" "9999" None "2025-01-02 11:00:00" demo_state =
  Returned (false, "Account already exists.") demo_state /\
  create_account "1003" "Carol" "9999" None "2025-01-02 11:00:00" demo_state =
  Returned (true, "Account created.")
    (saved
       (<["1003" :=
            mkAccount "Carol" "9999" float_zero
              [mkTransaction "2025-01-02 11:00:00" "Account Created" float_zero
                 "Initial account setup" float_zero]]>
          (accts demo_state))
       demo_state).
Proof.
  split.
  - apply (proj1 (create_account_correct demo_state "1001" "Mallory" "9999" None
                    "2025-01-02 11:00:00")).
    exists alice. vm_compute. reflexivity.
  - apply (proj2 (create_account_correct demo_state "1003" "Carol" "9999" None
                    "2025-01-02 11:00:00")).
    vm_compute. reflexivity.
Defined.

Lemma snapshot_json_roundtrips : json_roundtrips snapshot_json.
Proof. intros accounts. reflexivity. Qed.

Lemma save_then_load_witness :
  (save_accounts (accts demo_state) >> load_accounts) empty_state =
  Returned (accts demo_state)
    (mkState ∅ (<[ACCOUNTS_FILE := json_dump (accts demo_state)]> ∅)).
Proof.
  apply (save_then_load empty_state (accts demo_state)).
  intros accounts. reflexivity.
Defined.

Lemma validation_error_changes_nothing_witness :
  final_state
    (run (Withdraw "1001" (Some (float_of_Z 6000)) "2025-01-02 10:05:00") demo_state) =
  demo_state.
Proof.
  apply (validation_error_changes_nothing
           (Withdraw "1001" (Some (float_of_Z 6000)) "2025-01-02 10:05:00")
           demo_state _ InsufficientFunds).
  vm_compute. reflexivity.
Defined.

Lemma pins_stay_ok_witness :
  pins_ok
    (accts
       (after_all
          [Create "1001" "Alice" "1234" (Some (float_of_Z 5000)) "2025-01-01 09:00:00";
           Deposit "1001" (Some (float_of_Z 200)) "2025-01-02 10:00:00";
           ChangePin "1001" "1234" "4321" "4321" "2025-01-02 10:20:00";
           ChangePin "1001" "4321" "12" "12" "2025-01-02 10:21:00"]
          empty_state)).
Proof.
  apply pins_stay_ok.
  - intros k a H. cbn in H. rewrite lookup_empty in H. discriminate.
  - repeat constructor.
Defined.

Lemma demo_balances_sound : balances_sound (accts demo_state).
Proof.
  intros k a. rewrite demo_accounts. intros H.
  apply lookup_insert_Some in H as [[_ <-]|[_ H]]; [split; reflexivity|].
  apply lookup_insert_Some in H as [[_ <-]|[_ H]]; [split; reflexivity|].
  rewrite lookup_empty in H. discriminate.
Qed.

Lemma finite_amounts_keep_balances_nonnegative_witness :
  balances_nonnegative
    (accts
       (after (Transfer "1001" "1002" (Some (float_of_decimal 4 2))
                 "2025-01-02 10:10:00" "2025-01-02 10:10:01") demo_state)).
Proof.
  apply finite_amounts_keep_balances_nonnegative.
  - exact I.
  - split; vm_compute; reflexivity.
  - exact demo_balances_sound.
Defined.

Lemma balances_never_below_zero_witness :
  balances_satisfy (fun b => not_negative b = true)
    (accts
       (after (Withdraw "1001" (Some S754_nan) "2025-01-02 10:00:00") demo_state)).
Proof.
  apply balances_never_below_zero.
  - exact I.
  - reflexivity.
  - intros k a Hk. destruct (demo_balances_sound k a Hk) as [Hf Hn].
    split; [exact Hf|]. apply nonnegative_not_negative, Hn.
Defined.

(** ** Below the data model: a negative balance *)

(** [create_account] does not test the sign of the initial balance it is
    given. On an account created below zero an amount above the balance
    need not be positive, and it is then refused as not positive: this is
    why the refusal for insufficient funds is stated on a balance [>= 0]. *)
Example withdraw_above_negative_balance :
  let s :=
    after (Create "2001" "Eve" "4321" (Some (float_of_Z (-100))) "2025-01-01 09:00:00")
      empty_state in
  let w := float_of_Z (-50) in
  is_float w = true /\
  balance <$> accts s !! "2001" = Some (float_of_Z (-100)) /\
  float_gt w (float_of_Z (-100)) = true /\
  withdraw "2001" (Some w) "2025-01-02 10:00:00" s =
  Returned Amount_must_be_positive s /\
  error_of Amount_must_be_positive <> Some InsufficientFunds.
Proof.
  cbv zeta. repeat split; try (vm_compute; reflexivity). discriminate.
Qed.

(** ** Where the statements of the specification fail *)

(** C5 as stated. [create_account] stores a PIN of two characters, and one
    that is not made of digits; both are ASCII texts, on which [isdigit] and
    [len] are computed by [ascii_text]. *)
Lemma created_pin_unchecked :
  let s :=
    after_all
      [Create "2002" "Mallory" "12" None "2025-01-01 09:00:00";
       Create "2003" "Trent" "abcd" None "2025-01-01 09:00:01"]
      empty_state in
  pin <$> accts s !! "2002" = Some "12" /\
  pin <$> accts s !! "2003" = Some "abcd" /\
  pin_ok "12" = false /\ pin_ok "abcd" = false /\
  ~ pins_ok (accts s).
Proof.
  cbv zeta. repeat split; try (vm_compute; reflexivity).
  intros Hok.
  specialize (Hok "2002"
    (mkAccount "Mallory" "12" float_zero
       [mkTransaction "2025-01-01 09:00:00" "Account Created" float_zero
          "Initial account setup" float_zero])).
  assert (Hfalse : pin_ok "12" = true) by (apply Hok; vm_compute; reflexivity).
  discriminate Hfalse.
Qed.

(** C10 as stated. With a balance of 0.11, a transfer of 0.04 to the same
    account leaves 0.11000000000000001: the subtraction rounds, and the
    addition does not undo it. *)
Lemma self_transfer_changes_balance :
  let s :=
    after (Create "3001" "Carol" "9876" (Some (float_of_decimal 11 2))
             "2025-01-01 09:00:00") empty_state in
  let t := float_of_decimal 4 2 in
  let s' :=
    final_state
      (transfer "3001" "3001" (Some t) "2025-01-02 10:00:00" "2025-01-02 10:00:00" s) in
  is_float t = true /\ is_float (float_of_decimal 11 2) = true /\
  balance <$> accts s !! "3001" = Some (float_of_decimal 11 2) /\
  float_lt float_zero t = true /\
  float_le t (float_of_decimal 11 2) = true /\
  float_of_decimal 11 2 = S754_finite false 7926335344172073 (-56) /\
  balance <$> accts s' !! "3001" = Some (S754_finite false 7926335344172074 (-56)) /\
  balance <$> accts s' !! "3001" <> balance <$> accts s !! "3001".
Proof.
  cbv zeta. repeat split; try (vm_compute; reflexivity).
  vm_compute. discriminate.
Qed.

(** C4 at the amount [nan]. [float("nan")] parses; it is neither [<= 0]
    nor above any balance, so the withdrawal goes through and the balance
    becomes NaN, which is not [>= 0]. *)
Theorem withdraw_nan_corrupts_balance :
  let o := Withdraw "1001" (Some S754_nan) "2025-01-02 10:00:00" in
  let s' := after o demo_state in
  balances_nonnegative (accts demo_state) /\
  is_float S754_nan = true /\
  run o demo_state = Returned None s' /\
  balance <$> accts s' !! "1001" = Some S754_nan /\
  nonnegative S754_nan = false /\
  ~ balances_nonnegative (accts s').
Proof.
  cbv zeta. split; [apply demo_balances_nonnegative|].
  repeat split; try (vm_compute; reflexivity).
  intros Hnn.
  specialize (Hnn "1001"
    (mkAccount "Alice" "1234" S754_nan
       (transactions alice ++
        [mkTransaction "2025-01-02 10:00:00" "Withdrawal" S754_nan
           "Cash withdrawal" S754_nan]))).
  assert (Hfalse : nonnegative S754_nan = true) by (apply Hnn; vm_compute; reflexivity).
  discriminate Hfalse.
Qed.

(** The same amount in a transfer: both balances become NaN. *)
Lemma transfer_nan_corrupts_balances :
  let o :=
    Transfer "1001" "1002" (Some S754_nan) "2025-01-02 10:00:00" "2025-01-02 10:00:00" in
  let s' := after o demo_state in
  run o demo_state = Returned None s' /\
  balance <$> accts s' !! "1001" = Some S754_nan /\
  balance <$> accts s' !! "1002" = Some S754_nan.
Proof. cbv zeta. repeat split; vm_compute; reflexivity. Qed.

(** An infinite amount does the same in two steps: a deposit of [inf]
    makes the balance infinite, and a withdrawal of [inf] is then within
    the balance and leaves [inf - inf], which is NaN. *)
Lemma withdraw_inf_corrupts_balance :
  let s' :=
    after_all
      [Deposit "1001" (Some (S754_infinity false)) "2025-01-02 10:00:00";
       Withdraw "1001" (Some (S754_infinity false)) "2025-01-02 10:01:00"]
      demo_state in
  balance <$> accts s' !! "1001" = Some S754_nan.
Proof. vm_compute. reflexivity. Qed.

(** Once a balance is NaN no amount is above it: a withdrawal of any
    positive amount is accepted. *)
Lemma nan_balance_defeats_check (w : float) :
  float_gt w S754_nan = false.
Proof. unfold float_gt. now destruct w. Qed.

End Samples.

(** * Further properties of the operations *)

Section Outcomes.
Context {Content : Type} {codec : Json Content} {text : Text}.
Implicit Types (s : State Content) (acct : Account) (accounts : Accounts).

(** ** The three outcomes of an operation *)

Lemma deposit_accepted s acct_no acct amt now :
  accts s !! acct_no = Some acct ->
  float_le amt float_zero = false ->
  deposit acct_no (Some amt) now s =
  Returned (Deposited amt (float_add (balance acct) amt))
    (saved
       (<[acct_no :=
            mkAccount (name acct) (pin acct) (float_add (balance acct) amt)
              (transactions acct ++
               [mkTransaction now "Deposit" amt "Cash deposit"
                  (float_add (balance acct) amt)])]>
          (accts s))
       s).
Proof.
  intros Hacct Hpos. unfold deposit. rewrite Hpos.
  unfold bind at 1. rewrite (update_account_found _ _ _ _ Hacct).
  unfold bind at 1.
  erewrite add_transaction_found by (cbn; apply lookup_insert_eq).
  unfold bind at 1. rewrite save_current.
  unfold bind at 1.
  erewrite get_account_found by (cbn; apply lookup_insert_eq).
  cbn. rewrite insert_insert_eq. reflexivity.
Qed.

Lemma change_pin_accepted s acct_no acct new now :
  accts s !! acct_no = Some acct ->
  isdigit new = true -> (4 <= len new)%nat ->
  change_pin acct_no (pin acct) new new now s =
  Returned PIN_changed
    (saved
       (<[acct_no :=
            mkAccount (name acct) new (balance acct)
              (transactions acct ++
               [mkTransaction now "PIN Change" float_zero "PIN updated"
                  (balance acct)])]>
          (accts s))
       s).
Proof.
  intros Hacct Hdig Hlen.
  unfold change_pin. unfold bind at 1. rewrite (get_account_found _ _ _ Hacct).
  rewrite bool_decide_eq_false_2 by (intros Hn; now apply Hn).
  rewrite bool_decide_eq_false_2 by (intros Hn; now apply Hn).
  rewrite Hdig. cbn [negb orb].
  replace (len new <? 4)%nat with false by (symmetry; apply Nat.ltb_ge, Hlen).
  unfold bind at 1. rewrite (update_account_found _ _ _ _ Hacct).
  unfold bind at 1.
  erewrite add_transaction_found by (cbn; apply lookup_insert_eq).
  unfold bind at 1. rewrite save_current.
  cbn. rewrite insert_insert_eq. reflexivity.
Qed.

Lemma create_account_fresh s acct_no nm p initial_balance now :
  accts s !! acct_no = None ->
  create_account acct_no nm p initial_balance now s =
  Returned (true, "Account created.")
    (saved
       (<[acct_no :=
            mkAccount nm p (default float_zero initial_balance)
              [mkTransaction now "Account Created" float_zero
                 "Initial account setup" (default float_zero initial_balance)]]>
          (accts s))
       s).
Proof.
  intros Hnone. unfold create_account, contains. unfold bind at 1.
  rewrite bool_decide_eq_false_2 by (rewrite Hnone; apply is_Some_None).
  unfold bind at 1, set_account at 1.
  unfold bind at 1.
  erewrite add_transaction_found by (cbn; apply lookup_insert_eq).
  unfold bind at 1. rewrite save_current.
  cbn. rewrite insert_insert_eq. reflexivity.
Qed.

Lemma run_bind_returned {A} (m : M Content A) (f : A -> option error) s a s' :
  m s = Returned a s' ->
  bind m (fun x => ret (f x)) s = Returned (f a) s'.
Proof. intros H. unfold bind. now rewrite H. Qed.

Lemma run_bind_raised {A} (m : M Content A) (f : A -> option error) s e s' :
  m s = Raised e s' ->
  bind m (fun x => ret (f x)) s = Raised e s'.
Proof. intros H. unfold bind. now rewrite H. Qed.

(** An operation is refused with an error and leaves the state, or raises
    [KeyError] on its missing session account and leaves the state, or is
    accepted and saves the dictionary it produced. *)
Lemma run_cases (o : operation) s :
  (exists e, run o s = Returned (Some e) s)
  \/ (exists k, session_account o = Some k /\ accts s !! k = None /\
                run o s = Raised (KeyError k) s)
  \/ (exists accounts',
        accepts o (accts s) accounts' /\
        run o s = Returned None (saved accounts' s)).
Proof.
  destruct o as [acct_no nm p initial_balance now|acct_no parsed now
                |acct_no parsed now|acct_no to_acct parsed now_out now_in
                |acct_no old new confirm now]; cbn [run session_account].
  - (* create_account *)
    destruct (accts s !! acct_no) as [a|] eqn:Ha.
    + left. exists AlreadyExists.
      apply (run_bind_returned _ error_of_created _ (false, "Account already exists.")).
      unfold create_account, contains. unfold bind at 1.
      rewrite bool_decide_eq_true_2 by (rewrite Ha; eauto). reflexivity.
    + right. right. eexists. split; [eapply accepts_create; eassumption|].
      apply (run_bind_returned _ error_of_created _ (true, "Account created.")).
      now apply create_account_fresh.
  - (* deposit *)
    destruct parsed as [amt|].
    2:{ left. exists InvalidAmount. reflexivity. }
    destruct (float_le amt float_zero) eqn:Hle0.
    { left. exists InvalidAmount.
      apply (run_bind_returned _ error_of _ Amount_must_be_positive).
      unfold deposit. now rewrite Hle0. }
    destruct (accts s !! acct_no) as [a|] eqn:Ha.
    + right. right. eexists. split; [eapply accepts_deposit; eassumption|].
      now rewrite (run_bind_returned _ error_of _ _ _ (deposit_accepted _ _ _ _ now Ha Hle0)).
    + right. left. exists acct_no. repeat split; [exact Ha|].
      apply run_bind_raised. unfold deposit. rewrite Hle0.
      unfold bind, update_account, bind, get_account. now rewrite Ha.
  - (* withdraw *)
    destruct parsed as [amt|].
    2:{ left. exists InvalidAmount. reflexivity. }
    destruct (float_le amt float_zero) eqn:Hle0.
    { left. exists InvalidAmount.
      apply (run_bind_returned _ error_of _ Amount_must_be_positive).
      unfold withdraw. now rewrite Hle0. }
    destruct (accts s !! acct_no) as [a|] eqn:Ha.
    2:{ right. left. exists acct_no. repeat split; [exact Ha|].
        apply run_bind_raised. unfold withdraw. rewrite Hle0.
        unfold bind, get_account. now rewrite Ha. }
    destruct (float_gt amt (balance a)) eqn:Hgt.
    { left. exists InsufficientFunds.
      apply (run_bind_returned _ error_of _ Insufficient_funds).
      unfold withdraw. rewrite Hle0. unfold bind at 1.
      now rewrite (get_account_found _ _ _ Ha), Hgt. }
    right. right. eexists. split; [eapply accepts_withdraw; eassumption|].
    now rewrite (run_bind_returned _ error_of _ _ _ (withdraw_accepted _ _ _ _ now Ha Hle0 Hgt)).
  - (* transfer *)
    destruct (accts s !! to_acct) as [b|] eqn:Hb.
    2:{ left. exists NotFound.
        apply (run_bind_returned _ error_of _ Destination_does_not_exist).
        unfold transfer, contains. unfold bind at 1. rewrite Hb.
        now rewrite bool_decide_eq_false_2 by apply is_Some_None. }
    assert (Hin : bool_decide (is_Some (accts s !! to_acct)) = true)
      by (apply bool_decide_eq_true_2; rewrite Hb; eauto).
    destruct parsed as [amt|].
    2:{ left. exists InvalidAmount.
        apply (run_bind_returned _ error_of _ Invalid_amount).
        unfold transfer, contains. unfold bind at 1. now rewrite Hin. }
    destruct (float_le amt float_zero) eqn:Hle0.
    { left. exists InvalidAmount.
      apply (run_bind_returned _ error_of _ Amount_must_be_positive).
      unfold transfer, contains. unfold bind at 1. rewrite Hin. cbn [negb].
      now rewrite Hle0. }
    destruct (accts s !! acct_no) as [a|] eqn:Ha.
    2:{ right. left. exists acct_no. repeat split; [exact Ha|].
        apply run_bind_raised.
        unfold transfer, contains. unfold bind at 1. rewrite Hin. cbn [negb].
        rewrite Hle0. unfold bind, get_account. now rewrite Ha. }
    destruct (float_gt amt (balance a)) eqn:Hgt.
    { left. exists InsufficientFunds.
      apply (run_bind_returned _ error_of _ Insufficient_funds).
      unfold transfer, contains. unfold bind at 1. rewrite Hin. cbn [negb].
      rewrite Hle0. unfold bind at 1.
      now rewrite (get_account_found _ _ _ Ha), Hgt. }
    right. right.
    destruct (decide (acct_no = to_acct)) as [<-|Hne].
    + eexists. split; [eapply accepts_self_transfer; eassumption|].
      now rewrite (run_bind_returned _ error_of _ _ _
                     (self_transfer_accepted _ _ _ _ now_out now_in Ha Hle0 Hgt)).
    + eexists. split; [eapply accepts_transfer; eassumption|].
      now rewrite (run_bind_returned _ error_of _ _ _
                     (transfer_accepted _ _ _ _ _ _ now_out now_in Ha Hb Hne Hle0 Hgt)).
  - (* change_pin *)
    destruct (accts s !! acct_no) as [a|] eqn:Ha.
    2:{ right. left. exists acct_no. repeat split; [exact Ha|].
        apply run_bind_raised. unfold change_pin, bind, get_account.
        now rewrite Ha. }
    destruct (decide (old = pin a)) as [->|Hold].
    2:{ left. exists WrongPin.
        apply (run_bind_returned _ error_of _ Current_PIN_incorrect).
        unfold change_pin. unfold bind at 1.
        rewrite (get_account_found _ _ _ Ha).
        now rewrite bool_decide_eq_true_2 by exact Hold. }
    destruct (decide (new = confirm)) as [<-|Hconf].
    2:{ left. exists PinMismatch.
        apply (run_bind_returned _ error_of _ PIN_mismatch).
        unfold change_pin. unfold bind at 1.
        rewrite (get_account_found _ _ _ Ha).
        rewrite bool_decide_eq_false_2 by (intros Hn; now apply Hn).
        now rewrite bool_decide_eq_true_2 by exact Hconf. }
    destruct (negb (isdigit new) || (len new <? 4)%nat) eqn:Hweak.
    { left. exists WeakPin.
      apply (run_bind_returned _ error_of _ PIN_must_be_numeric).
      unfold change_pin. unfold bind at 1.
      rewrite (get_account_found _ _ _ Ha).
      rewrite bool_decide_eq_false_2 by (intros Hn; now apply Hn).
      rewrite bool_decide_eq_false_2 by (intros Hn; now apply Hn).
      now rewrite Hweak. }
    apply orb_false_iff in Hweak as [Hdig Hlen].
    apply negb_false_iff in Hdig. apply Nat.ltb_ge in Hlen.
    right. right. eexists. split; [eapply accepts_change_pin; eassumption|].
    apply (run_bind_returned _ error_of _ PIN_changed).
    now apply change_pin_accepted.
Qed.

End Outcomes.

Section Sequences.
Context {Content : Type} {codec : Json Content} {text : Text}.
Implicit Types (s : State Content) (acct : Account) (accounts : Accounts).

Lemma after_all_cons (o : operation) (ops : list operation) s :
  after_all (o :: ops) s = after_all ops (after o s).
Proof. reflexivity. Qed.

Lemma after_cases (o : operation) s :
  after o s = s \/
  exists accounts', accepts o (accts s) accounts' /\ after o s = saved accounts' s.
Proof.
  unfold after.
  destruct (run_cases o s) as [[e H]|[(k & _ & _ & H)|(accounts' & Hacc & H)]];
    rewrite H; cbn; eauto.
Qed.

(** X1. A [KeyError] of an operation names its session account, which is
    missing from the store, and the dictionary and the files are as the
    call found them: the lookup that raises it comes before every update. *)
Theorem key_error_leaves_state (o : operation) s k s' :
  run o s = Raised (KeyError k) s' ->
  s' = s /\ session_account o = Some k /\ accts s !! k = None.
Proof.
  intros Hrun.
  destruct (run_cases o s) as [[e' H]|[(k' & Hk & Hnone & H)|(accounts' & _ & H)]];
    rewrite H in Hrun; try discriminate.
  injection Hrun as <- <-. auto.
Qed.

Lemma run_returns (o : operation) s :
  (forall k, session_account o = Some k -> is_Some (accts s !! k)) ->
  exists r, run o s = Returned r (after o s).
Proof.
  intros Hknown. unfold after.
  destruct (run_cases o s) as [[e H]|[(k & Hk & Hnone & H)|(accounts' & _ & H)]];
    rewrite H; eauto.
  destruct (Hknown k Hk) as [a Ha]. congruence.
Qed.

(** X2. [create_account] never raises [KeyError], and an operation of the
    menu on an account that is in the store never raises it either. *)
Theorem known_account_no_key_error (o : operation) s :
  (forall k, session_account o = Some k -> is_Some (accts s !! k)) ->
  forall k s', run o s <> Raised (KeyError k) s'.
Proof.
  intros Hknown k s' Hrun.
  destruct (run_returns o s Hknown) as [r Hr]. congruence.
Qed.

(** ** What an accepted operation changes *)

Ltac lookup_cases :=
  repeat match goal with
  | |- context [<[?k1 := _]> _ !! ?k] =>
      destruct (decide (k = k1)) as [->|?];
      [rewrite lookup_insert_eq|rewrite lookup_insert_ne by done]
  | H : context [<[?k1 := _]> _ !! ?k] |- _ =>
      destruct (decide (k = k1)) as [->|?];
      [rewrite lookup_insert_eq in H|rewrite lookup_insert_ne in H by done]
  end.

Lemma accepts_frame o accounts accounts' k :
  accepts o accounts accounts' ->
  k ∉ accounts_named o -> accounts' !! k = accounts !! k.
Proof.
  intros Hacc Hk. destruct Hacc; cbn in Hk; lookup_cases;
    try reflexivity; exfalso; apply Hk; set_solver.
Qed.

(** X3. An operation leaves every account it is not given as it was. *)
Theorem operation_frame (o : operation) s k :
  k ∉ accounts_named o -> accts (after o s) !! k = accts s !! k.
Proof.
  intros Hk. destruct (after_cases o s) as [->|(accounts' & Hacc & ->)];
    [reflexivity|]. cbn. now apply (accepts_frame o).
Qed.

(** X4. The operations write no file but the snapshot. *)
Theorem only_snapshot_written (ops : list operation) s path :
  path <> ACCOUNTS_FILE ->
  files (after_all ops s) !! path = files s !! path.
Proof.
  intros Hpath. revert s. induction ops as [|o ops IH]; intros s; [reflexivity|].
  rewrite after_all_cons, IH.
  destruct (after_cases o s) as [->|(accounts' & _ & ->)]; [reflexivity|].
  cbn. now rewrite lookup_insert_ne.
Qed.

Lemma grows_refl accounts : grows accounts accounts.
Proof. intros k a Ha. exists a. repeat split; [exact Ha|reflexivity]. Qed.

Lemma grows_trans accounts1 accounts2 accounts3 :
  grows accounts1 accounts2 -> grows accounts2 accounts3 ->
  grows accounts1 accounts3.
Proof.
  intros H12 H23 k a Ha.
  destruct (H12 k a Ha) as (a2 & Ha2 & Hn2 & Hp2).
  destruct (H23 k a2 Ha2) as (a3 & Ha3 & Hn3 & Hp3).
  exists a3. repeat split; [exact Ha3|congruence|].
  now transitivity (transactions a2).
Qed.

Lemma accepts_grows o accounts accounts' :
  accepts o accounts accounts' -> grows accounts accounts'.
Proof.
  intros Hacc k acct Hk.
  destruct Hacc; lookup_cases; simplify_eq;
    (eexists; split; [first [reflexivity|eassumption]|]);
    (split; [reflexivity|]); cbn;
    first [reflexivity | apply prefix_app_r; reflexivity].
Qed.

Lemma after_all_grows (ops : list operation) s :
  grows (accts s) (accts (after_all ops s)).
Proof.
  revert s. induction ops as [|o ops IH]; intros s; [apply grows_refl|].
  rewrite after_all_cons. eapply grows_trans; [|apply IH].
  destruct (after_cases o s) as [->|(accounts' & Hacc & ->)];
    [apply grows_refl|]. cbn. now apply (accepts_grows o).
Qed.

(** X5. Along any sequence of operations no account disappears, no holder
    name changes, and every ledger only gets entries appended: the ledger
    before is a prefix of the ledger after. *)
Theorem ledgers_only_grow (ops : list operation) s :
  grows (accts s) (accts (after_all ops s)).
Proof. apply after_all_grows. Qed.

(** X6. A PIN changes only through [change_pin] on that very account, given
    its current PIN and twice the new one, which is a text of digits, as
    [str.isdigit] decides, of length at least 4. *)
Theorem pin_changes_only_by_change_pin (o : operation) s k acct acct' :
  accts s !! k = Some acct ->
  accts (after o s) !! k = Some acct' ->
  pin acct' <> pin acct ->
  exists now,
    o = ChangePin k (pin acct) (pin acct') (pin acct') now /\
    pin_ok (pin acct') = true.
Proof.
  intros Hk Hk' Hpin.
  destruct (after_cases o s) as [Hs|(accounts' & Hacc & Hs)]; rewrite Hs in Hk'.
  { congruence. }
  cbn in Hk'. destruct Hacc; lookup_cases; simplify_eq; try done.
  eexists. split; [reflexivity|]. cbn. unfold pin_ok.
  apply andb_true_iff. split; [assumption|]. now apply Nat.leb_le.
Qed.

(** X7. An account appears in the store only through [create_account] on
    a number that was free, with the fields given and a ledger of one
    entry. *)
Theorem account_appears_only_by_create (o : operation) s k acct' :
  accts s !! k = None ->
  accts (after o s) !! k = Some acct' ->
  exists nm p initial_balance now,
    o = Create k nm p initial_balance now /\
    acct' =
      mkAccount nm p (default float_zero initial_balance)
        [mkTransaction now "Account Created" float_zero
           "Initial account setup" (default float_zero initial_balance)].
Proof.
  intros Hk Hk'.
  destruct (after_cases o s) as [Hs|(accounts' & Hacc & Hs)]; rewrite Hs in Hk'.
  { congruence. }
  cbn in Hk'. destruct Hacc; lookup_cases; simplify_eq.
  eauto 6.
Qed.

Lemma accepts_ledgers_current o accounts accounts' :
  accepts o accounts accounts' ->
  ledgers_current accounts -> ledgers_current accounts'.
Proof.
  intros Hacc Hcur k acct Hk.
  destruct Hacc; lookup_cases; simplify_eq;
    try (eapply Hcur; eassumption);
    first
      [ eexists [], _; split; reflexivity
      | eexists _, _; split; reflexivity
      | eexists (transactions a ++ [_])%list, _; cbn;
        rewrite <- app_assoc; split; reflexivity ].
Qed.

Lemma after_all_ledgers_current (ops : list operation) s :
  ledgers_current (accts s) ->
  ledgers_current (accts (after_all ops s)).
Proof.
  revert s. induction ops as [|o ops IH]; intros s Hs; [exact Hs|].
  rewrite after_all_cons. apply IH.
  destruct (after_cases o s) as [->|(accounts' & Hacc & ->)]; [exact Hs|].
  cbn. now apply (accepts_ledgers_current o (accts s)).
Qed.

(** X8. Along any sequence of operations every ledger keeps at least one
    entry, and its last entry records the balance the account has. *)
Theorem ledgers_stay_current (ops : list operation) s :
  ledgers_current (accts s) ->
  ledgers_current (accts (after_all ops s)).
Proof. apply after_all_ledgers_current. Qed.

Lemma saved_synced accounts s :
  json_roundtrips codec -> synced (saved accounts s).
Proof.
  intros Hrt. unfold synced, load_accounts, read_file, bind, saved. cbn.
  rewrite lookup_insert_eq, Hrt. reflexivity.
Qed.

Lemma after_all_synced (ops : list operation) s :
  json_roundtrips codec -> synced s -> synced (after_all ops s).
Proof.
  intros Hrt. revert s. induction ops as [|o ops IH]; intros s Hs; [exact Hs|].
  rewrite after_all_cons. apply IH.
  destruct (after_cases o s) as [->|(accounts' & _ & ->)]; [exact Hs|].
  now apply saved_synced.
Qed.

Lemma reload_synced s : synced s -> reload_accounts s = Returned tt s.
Proof.
  intros Hs. unfold reload_accounts, bind. rewrite Hs. now destruct s.
Qed.

(** X9. Given the round trip of the codec, the snapshot on disk follows
    the dictionary in memory: from a state where [load_accounts] returns
    the dictionary, it still does after any sequence of operations, so
    the reload that follows a session changes nothing. *)
Theorem operations_keep_synced (ops : list operation) s :
  json_roundtrips codec ->
  synced s ->
  synced (after_all ops s) /\
  reload_accounts (after_all ops s) = Returned tt (after_all ops s).
Proof.
  intros Hrt Hs.
  pose proof (after_all_synced ops s Hrt Hs) as Hinv.
  split; [exact Hinv|]. now apply reload_synced.
Qed.

End Sequences.

Section MoreOperations.
Context {Content : Type} {codec : Json Content} {text : Text}.
Implicit Types (s : State Content) (acct : Account) (accounts : Accounts).

(** X10. [transfer] reports the first check that fails, in the order
    destination, parse, sign, funds; the first three do not look at the
    session account. *)
Theorem transfer_refusals s acct_no to_acct parsed now_out now_in :
  (accts s !! to_acct = None ->
     transfer acct_no to_acct parsed now_out now_in s =
     Returned Destination_does_not_exist s)
  /\ (is_Some (accts s !! to_acct) -> parsed = None ->
        transfer acct_no to_acct parsed now_out now_in s =
        Returned Invalid_amount s)
  /\ (is_Some (accts s !! to_acct) ->
      forall amt, parsed = Some amt -> float_le amt float_zero = true ->
        transfer acct_no to_acct parsed now_out now_in s =
        Returned Amount_must_be_positive s)
  /\ (is_Some (accts s !! to_acct) ->
      forall amt acct, parsed = Some amt -> float_le amt float_zero = false ->
        accts s !! acct_no = Some acct -> float_gt amt (balance acct) = true ->
        transfer acct_no to_acct parsed now_out now_in s =
        Returned Insufficient_funds s).
Proof.
  repeat split.
  - intros Hb. unfold transfer, contains. unfold bind at 1. rewrite Hb.
    now rewrite bool_decide_eq_false_2 by apply is_Some_None.
  - intros Hb ->. unfold transfer, contains. unfold bind at 1.
    now rewrite bool_decide_eq_true_2 by exact Hb.
  - intros Hb amt -> Hle0. unfold transfer, contains. unfold bind at 1.
    rewrite bool_decide_eq_true_2 by exact Hb. cbn [negb]. now rewrite Hle0.
  - intros Hb amt acct -> Hle0 Ha Hgt. unfold transfer, contains.
    unfold bind at 1. rewrite bool_decide_eq_true_2 by exact Hb. cbn [negb].
    rewrite Hle0. unfold bind at 1.
    now rewrite (get_account_found _ _ _ Ha), Hgt.
Qed.

(** X11. A deposit of any amount but NaN, accepted or refused, leaves
    every balance [>= 0] on a store whose balances are [>= 0]. *)
Theorem deposit_keeps_balances_nonnegative s acct_no parsed now :
  parsed <> Some S754_nan ->
  balances_nonnegative (accts s) ->
  balances_nonnegative (accts (after (Deposit acct_no parsed now) s)).
Proof.
  intros Hnan Hs.
  destruct (after_cases (Deposit acct_no parsed now) s)
    as [->|(accounts' & Hacc & ->)]; [exact Hs|].
  cbn. inversion Hacc as [|k amt t accounts a Ha Hle0| | | |]; subst.
  intros k' a' Hk'.
  destruct (decide (k' = acct_no)) as [->|Hne].
  - rewrite lookup_insert_eq in Hk'. injection Hk' as <-. cbn.
    apply float_add_nonneg; [apply (Hs _ _ Ha)|].
    destruct amt as [sy|[]| |[] my ey]; try discriminate; try reflexivity.
    now contradiction Hnan.
  - rewrite lookup_insert_ne in Hk' by done. apply (Hs _ _ Hk').
Qed.

(** ** Logging in *)

(** X12. [authenticate] never raises and never changes the state; it
    returns an account number only when it is the one typed, the account
    is in the store and the PIN typed is the PIN stored. *)
Theorem authenticate_sound s acct_no typed :
  exists r line,
    authenticate acct_no typed s = Returned (r, line) s /\
    (r = None \/ r = Some acct_no) /\
    (r = Some acct_no <->
     exists acct, accts s !! acct_no = Some acct /\ typed = pin acct).
Proof.
  unfold authenticate, contains. unfold bind at 1.
  destruct (accts s !! acct_no) as [a|] eqn:Ha.
  - rewrite bool_decide_eq_true_2 by eauto. cbn [negb].
    unfold bind at 1. rewrite (get_account_found _ _ _ Ha).
    destruct (decide (typed = pin a)) as [->|Hne].
    + rewrite bool_decide_eq_false_2 by (intros Hn; now apply Hn).
      eexists _, _. split; [reflexivity|]. split; [now right|].
      split; eauto.
    + rewrite bool_decide_eq_true_2 by exact Hne.
      eexists _, _. split; [reflexivity|]. split; [now left|].
      split; [discriminate|]. intros (a' & [= <-] & Heq). contradiction.
  - rewrite bool_decide_eq_false_2 by apply is_Some_None. cbn [negb].
    eexists _, _. split; [reflexivity|]. split; [now left|].
    split; [discriminate|]. intros (a' & [=] & _).
Qed.

Lemma authenticate_accepts s acct_no acct typed :
  accts s !! acct_no = Some acct -> typed = pin acct ->
  authenticate acct_no typed s =
  Returned (Some acct_no, Welcome (name acct)) s.
Proof.
  intros Ha ->. unfold authenticate, contains. unfold bind at 1. rewrite Ha.
  rewrite bool_decide_eq_true_2 by eauto. cbn [negb].
  unfold bind at 1. rewrite (get_account_found _ _ _ Ha).
  now rewrite bool_decide_eq_false_2 by (intros Hn; now apply Hn).
Qed.

Lemma authenticate_rejects s acct_no acct typed :
  accts s !! acct_no = Some acct -> typed <> pin acct ->
  authenticate acct_no typed s = Returned (None, Invalid_PIN) s.
Proof.
  intros Ha Hne. unfold authenticate, contains. unfold bind at 1. rewrite Ha.
  rewrite bool_decide_eq_true_2 by eauto. cbn [negb].
  unfold bind at 1. rewrite (get_account_found _ _ _ Ha).
  now rewrite bool_decide_eq_true_2 by exact Hne.
Qed.

(** X13. After a PIN change that was accepted, the new PIN logs in and the
    old one, when it differs, no longer does. *)
Theorem changed_pin_logs_in s s' acct_no acct old new confirm now :
  accts s !! acct_no = Some acct ->
  change_pin acct_no old new confirm now s = Returned PIN_changed s' ->
  authenticate acct_no new s' = Returned (Some acct_no, Welcome (name acct)) s' /\
  (old <> new ->
   authenticate acct_no old s' = Returned (None, Invalid_PIN) s').
Proof.
  intros Ha Hrun.
  assert (Hnone : run (ChangePin acct_no old new confirm now) s = Returned None s').
  { unfold run. now rewrite (run_bind_returned _ error_of _ _ _ Hrun). }
  destruct (run_cases (ChangePin acct_no old new confirm now) s)
    as [[e H]|[(k & _ & _ & H)|(accounts' & Hacc & H)]];
    rewrite H in Hnone; try discriminate.
  injection Hnone as <-.
  inversion Hacc as [| | | | |k new' t accounts a Ha' Hdig Hlen Ho Haccts Hres].
  rewrite Ha in Ha'. injection Ha' as <-.
  split.
  - erewrite authenticate_accepts; cycle 1;
      [cbn; apply lookup_insert_eq|reflexivity|reflexivity].
  - intros Hne.
    erewrite authenticate_rejects;
      [reflexivity|cbn; apply lookup_insert_eq|exact Hne].
Qed.

(** X14. An account just created logs in with the PIN it was created
    with, and with no other. *)
Theorem created_account_logs_in s acct_no nm p initial_balance now typed :
  accts s !! acct_no = None ->
  let s' := after (Create acct_no nm p initial_balance now) s in
  authenticate acct_no p s' = Returned (Some acct_no, Welcome nm) s' /\
  (typed <> p -> authenticate acct_no typed s' = Returned (None, Invalid_PIN) s').
Proof.
  intros Hnone s'.
  assert (Hs' : s' =
    saved
      (<[acct_no :=
           mkAccount nm p (default float_zero initial_balance)
             [mkTransaction now "Account Created" float_zero
                "Initial account setup" (default float_zero initial_balance)]]>
         (accts s)) s).
  { unfold s', after, run. rewrite final_state_bind_ret.
    now rewrite (create_account_fresh _ _ _ _ _ _ Hnone). }
  rewrite Hs'. split.
  - erewrite authenticate_accepts; cycle 1;
      [cbn; apply lookup_insert_eq|reflexivity|reflexivity].
  - intros Hne.
    erewrite authenticate_rejects;
      [reflexivity|cbn; apply lookup_insert_eq|exact Hne].
Qed.

(** ** The mini statement *)

Lemma slice_from_last {A} (n : Z) (l : list A) :
  (0 < n)%Z ->
  slice_from (- n) l = drop (length l - Z.to_nat n) l.
Proof.
  intros Hn. unfold slice_from.
  replace (- n <? 0)%Z with true by (symmetry; apply Z.ltb_lt; lia).
  f_equal. lia.
Qed.

Lemma slice_from_nonpositive {A} (n : Z) (l : list A) :
  (n <= 0)%Z ->
  slice_from (- n) l = drop (Z.to_nat (- n)) l.
Proof.
  intros Hn. unfold slice_from.
  replace (- n <? 0)%Z with false by (symmetry; apply Z.ltb_ge; lia).
  destruct (Z_le_gt_dec (- n) (Z.of_nat (length l))) as [Hle|Hgt].
  - now rewrite Z.min_l by lia.
  - rewrite Z.min_r by lia. rewrite Nat2Z.id.
    rewrite !drop_ge by lia. reflexivity.
Qed.

Lemma mini_statement_found s acct_no acct limit :
  accts s !! acct_no = Some acct ->
  mini_statement acct_no limit s =
  Returned
    (match slice_from (- default 10%Z limit) (transactions acct) with
     | [] => No_transactions_yet
     | _ :: _ => Last_transactions
                   (slice_from (- default 10%Z limit) (transactions acct))
     end) s.
Proof.
  intros Ha. unfold mini_statement. unfold bind at 1.
  rewrite (get_account_found _ _ _ Ha).
  now destruct (slice_from _ _).
Qed.

(** X15. With a limit of at least 1 (10 when none is given),
    [mini_statement] changes nothing and shows the most recent entries of
    the ledger, as many as the limit or all of them when there are fewer,
    oldest first; it says there are no transactions exactly when the
    ledger is empty. *)
Theorem mini_statement_shows_last s acct_no acct limit :
  accts s !! acct_no = Some acct ->
  (0 < default 10 limit)%Z ->
  exists older shown,
    transactions acct = (older ++ shown)%list /\
    length shown = Nat.min (Z.to_nat (default 10%Z limit)) (length (transactions acct)) /\
    mini_statement acct_no limit s =
    Returned
      (match transactions acct with
       | [] => No_transactions_yet
       | _ :: _ => Last_transactions shown
       end) s.
Proof.
  intros Ha Hlimit.
  set (n := Z.to_nat (default 10%Z limit)).
  exists (take (length (transactions acct) - n) (transactions acct)),
         (drop (length (transactions acct) - n) (transactions acct)).
  split; [now rewrite take_drop|].
  split; [rewrite length_drop; lia|].
  rewrite (mini_statement_found _ _ _ _ Ha), slice_from_last by exact Hlimit.
  fold n. destruct (transactions acct) as [|e l] eqn:Hl; [now rewrite drop_nil|].
  destruct (drop (length (e :: l) - n) (e :: l)) eqn:Hd; [|reflexivity].
  apply (f_equal length) in Hd. rewrite length_drop in Hd. cbn in Hd. lia.
Qed.

(** X16. A limit of 0 does not empty the statement: the slice
    [transactions[-0:]] is the whole ledger. A negative limit [-n] shows
    the ledger without its [n] oldest entries. *)
Theorem mini_statement_nonpositive_limit s acct_no acct (limit : Z) :
  accts s !! acct_no = Some acct ->
  (limit <= 0)%Z ->
  let shown := drop (Z.to_nat (- limit)) (transactions acct) in
  mini_statement acct_no (Some limit) s =
  Returned
    (match shown with
     | [] => No_transactions_yet
     | _ :: _ => Last_transactions shown
     end) s /\
  (limit = 0%Z -> shown = transactions acct).
Proof.
  intros Ha Hlimit shown. split.
  - rewrite (mini_statement_found _ _ _ _ Ha). cbn [default].
    rewrite slice_from_nonpositive by exact Hlimit. reflexivity.
  - intros ->. reflexivity.
Qed.

(** X17. On a store whose ledgers are current, as the operations keep
    them, the mini statement of an account is never empty, and its last
    line records the balance [check_balance] prints. *)
Theorem statement_ends_with_balance s acct_no acct limit :
  ledgers_current (accts s) ->
  accts s !! acct_no = Some acct ->
  (0 < default 10 limit)%Z ->
  exists shown e,
    mini_statement acct_no limit s = Returned (Last_transactions shown) s /\
    last shown = Some e /\
    check_balance acct_no s = Returned (tx_balance e) s.
Proof.
  intros Hcur Ha Hlimit.
  destruct (Hcur _ _ Ha) as (older & e & Htx & Hbal).
  rewrite (mini_statement_found _ _ _ _ Ha), slice_from_last by exact Hlimit.
  set (n := Z.to_nat (default 10%Z limit)).
  assert (Hn : (0 < n)%nat) by (unfold n; lia).
  assert (Hdrop : exists front,
            drop (length (transactions acct) - n) (transactions acct)
            = (front ++ [e])%list).
  { rewrite Htx, length_app. cbn [length].
    exists (drop (length older + 1 - n) older).
    rewrite drop_app. f_equal.
    replace (length older + 1 - n - length older)%nat with 0%nat by lia.
    reflexivity. }
  destruct Hdrop as [front Hfront]. rewrite Hfront.
  exists (front ++ [e])%list, e.
  split; [now destruct front|].
  split; [apply last_snoc|].
  unfold check_balance, bind. rewrite (get_account_found _ _ _ Ha).
  unfold ret. now rewrite Hbal.
Qed.

End MoreOperations.

(** * Properties of the two menus *)

Section MenuProperties.
Context {Content : Type} {codec : Json Content} {text : Text}.
Implicit Types (s : State Content) (acct : Account) (accounts : Accounts).

Lemma resume_run {A} (c : M Content A) (f : A -> option error) s s' r
    (rest : list turn) next :
  bind c (fun x => ret (f x)) s = Returned r s' ->
  resume (c s) rest next = next s'.
Proof.
  unfold bind, resume. destruct (c s) as [a s1|e s1]; [|discriminate].
  unfold ret. now intros [= _ ->].
Qed.

Lemma credited_refl acct : credited acct acct.
Proof.
  split; [reflexivity|]. split; [reflexivity|].
  exists []. split; [now rewrite app_nil_r|constructor].
Qed.

Lemma credited_trans a1 a2 a3 :
  credited a1 a2 -> credited a2 a3 -> credited a1 a3.
Proof.
  intros (Hn1 & Hp1 & l1 & Ht1 & Hf1) (Hn2 & Hp2 & l2 & Ht2 & Hf2).
  split; [congruence|]. split; [congruence|].
  exists (l1 ++ l2)%list. split.
  - now rewrite Ht2, Ht1, app_assoc.
  - now apply Forall_app.
Qed.

Lemma others_credited_refl acct_no accounts :
  others_credited acct_no accounts accounts.
Proof.
  intros k _. destruct (accounts !! k); [apply credited_refl|exact I].
Qed.

Lemma others_credited_trans acct_no accounts1 accounts2 accounts3 :
  others_credited acct_no accounts1 accounts2 ->
  others_credited acct_no accounts2 accounts3 ->
  others_credited acct_no accounts1 accounts3.
Proof.
  intros H12 H23 k Hk. specialize (H12 k Hk). specialize (H23 k Hk).
  destruct (accounts1 !! k), (accounts2 !! k), (accounts3 !! k);
    try contradiction; try exact I.
  eapply credited_trans; eassumption.
Qed.

Lemma accepts_others_credited o acct_no accounts accounts' :
  accepts o accounts accounts' ->
  session_account o = Some acct_no ->
  others_credited acct_no accounts accounts'.
Proof.
  intros Hacc Ho k Hk.
  destruct Hacc; cbn in Ho; simplify_eq;
    repeat (rewrite lookup_insert_ne by done);
    try (destruct (accounts !! k); [apply credited_refl|exact I]).
  destruct (decide (k = to_acct)) as [->|Hne].
  - rewrite lookup_insert_eq.
    match goal with H : accounts !! to_acct = Some _ |- _ => rewrite H end.
    split; [reflexivity|]. split; [reflexivity|].
    eexists. split; [reflexivity|]. repeat constructor.
  - repeat (rewrite lookup_insert_ne by done).
    destruct (accounts !! k); [apply credited_refl|exact I].
Qed.

Lemma session_others_credited acct_no (ops : list operation) s :
  Forall (fun o => session_account o = Some acct_no) ops ->
  others_credited acct_no (accts s) (accts (after_all ops s)).
Proof.
  intros Hops. revert s.
  induction Hops as [|o ops Ho _ IH]; intros s; [apply others_credited_refl|].
  rewrite after_all_cons. eapply others_credited_trans; [|apply IH].
  destruct (after_cases o s) as [->|(accounts' & Hacc & ->)];
    [apply others_credited_refl|]. cbn.
  now apply (accepts_others_credited o).
Qed.

Lemma account_stays (ops : list operation) s acct_no :
  is_Some (accts s !! acct_no) ->
  is_Some (accts (after_all ops s) !! acct_no).
Proof.
  intros [a Ha]. destruct (after_all_grows ops s _ _ Ha) as (a' & Ha' & _).
  eauto.
Qed.

(** A session is a sequence of operations on the session account. *)
Lemma atm_menu_operations acct_no (turns : list turn) s :
  is_Some (accts s !! acct_no) ->
  exists ops e rest,
    Forall (fun o => session_account o = Some acct_no) ops /\
    atm_menu acct_no turns s = (e, after_all ops s, rest) /\
    (e = Exited \/ e = Input_closed) /\
    length rest <= length turns.
Proof.
  revert s. induction turns as [|t turns IH]; intros s Hin.
  { exists [], Input_closed, []. repeat split; auto. }
  assert (Hop : forall o : operation,
            session_account o = Some acct_no ->
            exists ops e rest,
              Forall (fun o => session_account o = Some acct_no) ops /\
              atm_menu acct_no turns (after o s) = (e, after_all ops s, rest) /\
              (e = Exited \/ e = Input_closed) /\
              length rest <= length (t :: turns)).
  { intros o Ho.
    destruct (IH (after o s) (account_stays [o] s acct_no Hin))
      as (ops & e & rest & Hops & Hrun & He & Hlen).
    exists (o :: ops), e, rest. repeat split; auto.
    cbn [length]. lia. }
  assert (Hsame :
            exists ops e rest,
              Forall (fun o => session_account o = Some acct_no) ops /\
              atm_menu acct_no turns s = (e, after_all ops s, rest) /\
              (e = Exited \/ e = Input_closed) /\
              length rest <= length (t :: turns)).
  { destruct (IH s Hin) as (ops & e & rest & Hops & Hrun & He & Hlen).
    exists ops, e, rest. repeat split; auto. cbn [length]. lia. }
  assert (Hreturns : forall o : operation,
            session_account o = Some acct_no ->
            exists r, run o s = Returned r (after o s)).
  { intros o Ho. apply run_returns. intros k Hk. congruence. }
  destruct Hin as [a Ha].
  cbn [atm_menu].
  repeat case_bool_decide.
  - unfold check_balance, bind. rewrite (get_account_found _ _ _ Ha). exact Hsame.
  - destruct (Hreturns (Deposit acct_no (typed_amount t) (clock_1 t)) eq_refl)
      as [r Hr].
    rewrite (resume_run _ error_of _ _ _ _ _ Hr). now apply Hop.
  - destruct (Hreturns (Withdraw acct_no (typed_amount t) (clock_1 t)) eq_refl)
      as [r Hr].
    rewrite (resume_run _ error_of _ _ _ _ _ Hr). now apply Hop.
  - destruct (Hreturns (Transfer acct_no (typed_account t) (typed_amount t)
                          (clock_1 t) (clock_2 t)) eq_refl) as [r Hr].
    rewrite (resume_run _ error_of _ _ _ _ _ Hr). now apply Hop.
  - rewrite (mini_statement_found _ _ _ _ Ha). exact Hsame.
  - destruct (Hreturns (ChangePin acct_no (typed_pin t) (typed_new_pin t)
                          (typed_confirm t) (clock_1 t)) eq_refl) as [r Hr].
    rewrite (resume_run _ error_of _ _ _ _ _ Hr). now apply Hop.
  - exists [], Exited, turns. repeat split; auto. cbn [length]. lia.
  - exact Hsame.
Qed.

(** X18. Whatever is typed, a session of [atm_menu] for an account of the
    store never ends on a [KeyError]: no choice of the menu looks up an
    account that is missing. *)
Theorem session_no_key_error acct_no (turns : list turn) s :
  is_Some (accts s !! acct_no) ->
  forall k, (atm_menu acct_no turns s).1.1 <> Crashed (KeyError k).
Proof.
  intros Hin k.
  destruct (atm_menu_operations acct_no turns s Hin)
    as (ops & e & rest & _ & Hrun & He & _).
  rewrite Hrun. cbn. destruct He as [->| ->]; discriminate.
Qed.

(** X19. Whatever is typed, a session of [atm_menu] for an account adds
    and removes no account, and leaves every other account its holder
    name and its PIN: all it can do to another account is to append
    ["Transfer In"] entries to its ledger. *)
Theorem session_confined acct_no (turns : list turn) s :
  is_Some (accts s !! acct_no) ->
  others_credited acct_no (accts s) (accts (atm_menu acct_no turns s).1.2).
Proof.
  intros Hin.
  destruct (atm_menu_operations acct_no turns s Hin)
    as (ops & e & rest & Hops & Hrun & _ & _).
  rewrite Hrun. cbn. now apply session_others_credited.
Qed.

(** ** [main] *)

Lemma login_safe (t : turn) (rest : list turn) s :
  json_roundtrips codec -> synced s ->
  exists e s' rest',
    login t rest s = (e, s', rest') /\
    (e = Exited \/ e = Input_closed) /\
    synced s' /\ length rest' <= length rest.
Proof.
  intros Hrt Hs. unfold login.
  assert (Hnone : exists e s' rest',
            resume (reload_accounts s) rest (fun s3 => (Exited, s3, rest))
            = (e, s', rest') /\
            (e = Exited \/ e = Input_closed) /\
            synced s' /\ length rest' <= length rest).
  { rewrite (reload_synced s Hs). cbn. eauto 8. }
  unfold authenticate, contains. unfold bind at 1.
  destruct (accts s !! typed_account t) as [a|] eqn:Ha.
  2:{ rewrite bool_decide_eq_false_2 by apply is_Some_None. exact Hnone. }
  rewrite bool_decide_eq_true_2 by eauto. cbn [negb].
  unfold bind at 1. rewrite (get_account_found _ _ _ Ha).
  case_bool_decide; [exact Hnone|]. cbn [ret].
  destruct (truthy (typed_account t)); [|exact Hnone].
  destruct (atm_menu_operations (typed_account t) rest s (ex_intro _ a Ha))
    as (ops & e & rest' & _ & Hrun & He & Hlen).
  rewrite Hrun.
  pose proof (after_all_synced ops s Hrt Hs) as Hsync.
  destruct He as [->| ->].
  - rewrite (reload_synced _ Hsync). cbn. eauto 8.
  - eauto 8.
Qed.

Lemma create_account_runs s acct_no nm p initial_balance now :
  exists r,
    create_account acct_no nm p initial_balance now s =
    Returned r (after (Create acct_no nm p initial_balance now) s).
Proof.
  destruct (run_returns (Create acct_no nm p initial_balance now) s)
    as [r Hr]; [discriminate|].
  unfold after in *. unfold run, bind in *.
  destruct (create_account _ _ _ _ _ s) as [r' s'|e s']; [|discriminate].
  cbn. eauto.
Qed.

Lemma register_runs (t : turn) s :
  exists r,
    register t s =
    Returned r
      (after (Create (typed_account t) (typed_name t) (typed_pin t)
                (Some (default float_zero (typed_amount t))) (clock_1 t)) s).
Proof. apply create_account_runs. Qed.

Lemma main_loop_safe (fuel : nat) (turns : list turn) s :
  json_roundtrips codec -> synced s ->
  length turns < fuel ->
  exists e s',
    main_loop fuel turns s = Some (e, s') /\
    (e = Exited \/ e = Input_closed) /\ synced s'.
Proof.
  intros Hrt. revert turns s.
  induction fuel as [|fuel IH]; intros turns s Hs Hfuel; [lia|].
  destruct turns as [|t rest]; cbn [main_loop].
  { eauto 6. }
  cbn [length] in Hfuel.
  repeat case_bool_decide.
  - destruct (login_safe t rest s Hrt Hs)
      as (e & s' & rest' & -> & [->| ->] & Hsync & Hlen).
    + apply IH; [exact Hsync|lia].
    + eauto 6.
  - destruct (register_runs t s) as [r ->].
    apply IH; [|lia].
    apply (after_all_synced [_] s Hrt Hs).
  - eauto 6.
  - apply IH; [exact Hs|lia].
Qed.

Lemma create_demo_accounts_runs now_1 now_2 s :
  create_demo_accounts now_1 now_2 s =
  Returned tt
    (after_all
       [Create "1001" "Alice" "1234" (Some (float_of_Z 5000)) now_1;
        Create "1002" "Bob" "2345" (Some (float_of_Z 3000)) now_2] s).
Proof.
  unfold create_demo_accounts. unfold bind at 1.
  destruct (create_account_runs s "1001" "Alice" "1234"
              (Some (float_of_Z 5000)) now_1) as [r1 ->].
  unfold bind at 1.
  destruct (create_account_runs
              (after (Create "1001" "Alice" "1234" (Some (float_of_Z 5000)) now_1) s)
              "1002" "Bob" "2345" (Some (float_of_Z 3000)) now_2) as [r2 ->].
  reflexivity.
Qed.

(** With a snapshot that is absent or holds a store, and writes that
    succeed, [main] runs until choice 3 or the end of the input, and the
    snapshot it leaves on disk is the dictionary it has in memory. *)
Lemma main_runs now_1 now_2 (turns : list turn)
    (disk : gmap string Content) :
  json_roundtrips codec ->
  (forall c, disk !! ACCOUNTS_FILE = Some c -> is_Some (json_load c)) ->
  exists e s,
    main now_1 now_2 turns disk = Some (e, s) /\
    (e = Exited \/ e = Input_closed) /\ synced s.
Proof.
  intros Hrt Hdisk. unfold main.
  assert (Hload : exists accounts,
            load_accounts (mkState ∅ disk) = Returned accounts (mkState ∅ disk)).
  { unfold load_accounts, read_file, bind. cbn.
    destruct (disk !! ACCOUNTS_FILE) as [c|] eqn:Hc; [|eauto].
    destruct (Hdisk c eq_refl) as [a Ha]. rewrite Ha. eauto. }
  destruct Hload as [accounts Hload].
  unfold reload_accounts at 1. unfold bind at 1. rewrite Hload.
  cbv beta iota. cbn [files accts].
  assert (Hsync : synced (mkState accounts disk)).
  { unfold synced. unfold load_accounts, read_file, bind in *. cbn in *.
    destruct (disk !! ACCOUNTS_FILE) as [c|].
    - destruct (json_load c); [|discriminate]. now injection Hload as ->.
    - now injection Hload as ->. }
  destruct (size accounts =? 0)%nat.
  - rewrite create_demo_accounts_runs.
    apply main_loop_safe; [exact Hrt| |lia].
    now apply after_all_synced.
  - apply main_loop_safe; [exact Hrt|exact Hsync|lia].
Qed.

(** X20. Given the round trip of the codec and a snapshot that is absent
    or holds a store of well-formed account records, [main] never ends on
    a [KeyError] or on the error of [json.load], whatever is typed. *)
Theorem main_no_key_or_decoding_error now_1 now_2 (turns : list turn)
    (disk : gmap string Content) :
  json_roundtrips codec ->
  (forall c, disk !! ACCOUNTS_FILE = Some c -> is_Some (json_load c)) ->
  exists e s,
    main now_1 now_2 turns disk = Some (e, s) /\
    (forall k, e <> Crashed (KeyError k)) /\ e <> Crashed JSONDecodeError.
Proof.
  intros Hrt Hdisk.
  destruct (main_runs now_1 now_2 turns disk Hrt Hdisk) as (e & s & Hmain & He & _).
  exists e, s. split; [exact Hmain|].
  destruct He as [->| ->]; split; try intros k; discriminate.
Qed.

(** X21. On a snapshot that cannot be read, [main] ends at once on the
    exception of [json.load], before it reads any input, and writes
    nothing. *)
Theorem main_corrupt_snapshot now_1 now_2 (turns : list turn)
    (disk : gmap string Content) c :
  disk !! ACCOUNTS_FILE = Some c -> json_load c = None ->
  main now_1 now_2 turns disk = Some (Crashed JSONDecodeError, mkState ∅ disk).
Proof.
  intros Hc Hbad. unfold main, reload_accounts, load_accounts, read_file, bind.
  cbn. now rewrite Hc, Hbad.
Qed.

(** X22. An account whose number is the empty string authenticates with
    its PIN, yet choice 1 of [main] opens no session for it: the turns that
    follow are left to the menu of [main]. *)
Theorem empty_account_number_opens_no_session (t : turn) (rest : list turn) s acct :
  synced s ->
  accts s !! "" = Some acct ->
  typed_account t = "" -> typed_pin t = pin acct ->
  authenticate (typed_account t) (typed_pin t) s =
  Returned (Some "", Welcome (name acct)) s /\
  login t rest s = (Exited, s, rest).
Proof.
  intros Hs Ha Hacct Hpin.
  assert (Hauth : authenticate (typed_account t) (typed_pin t) s =
                  Returned (Some "", Welcome (name acct)) s).
  { rewrite Hacct. now apply authenticate_accepts. }
  split; [exact Hauth|].
  unfold login. rewrite Hauth. change (truthy "") with false.
  cbv beta iota zeta. now rewrite (reload_synced s Hs).
Qed.

End MenuProperties.

Section Further.
Context {Content : Type} {codec : Json Content} {text : Text}.
Implicit Types (s : State Content) (acct : Account) (accounts : Accounts).

Lemma float_add_nan_l (y : float) : float_add S754_nan y = S754_nan.
Proof. reflexivity. Qed.

Lemma float_sub_nan_l (y : float) : float_sub S754_nan y = S754_nan.
Proof. reflexivity. Qed.

Lemma accepts_keeps_nan o accounts accounts' k acct :
  accepts o accounts accounts' ->
  accounts !! k = Some acct -> balance acct = S754_nan ->
  exists acct', accounts' !! k = Some acct' /\ balance acct' = S754_nan.
Proof.
  intros Hacc Hk Hnan.
  destruct Hacc;
    repeat match goal with
    | |- context [<[?k1 := _]> _ !! k] =>
        destruct (decide (k = k1)) as [->|?];
        [rewrite lookup_insert_eq|rewrite lookup_insert_ne by done]
    end; simplify_eq;
    (eexists; split; [first [reflexivity|eassumption]|]); cbn;
    rewrite ?Hnan; try reflexivity.
Qed.

(** X23. A balance that is NaN stays NaN: no sequence of operations gives
    the account a number for a balance again. *)
Theorem nan_balance_is_permanent (ops : list operation) s k acct :
  accts s !! k = Some acct -> balance acct = S754_nan ->
  exists acct',
    accts (after_all ops s) !! k = Some acct' /\ balance acct' = S754_nan.
Proof.
  revert s acct. induction ops as [|o ops IH]; intros s acct Hk Hnan; [eauto|].
  rewrite after_all_cons.
  destruct (after_cases o s) as [->|(accounts' & Hacc & ->)]; [eauto|].
  destruct (accepts_keeps_nan _ _ _ _ _ Hacc Hk Hnan) as (a1 & Hk1 & Hnan1).
  apply (IH _ a1); [exact Hk1|exact Hnan1].
Qed.

Lemma atm_menu_no_exit acct_no (before : list turn) s :
  is_Some (accts s !! acct_no) ->
  Forall (fun t => typed_choice t <> "7") before ->
  (atm_menu acct_no before s).1.1 = Input_closed /\
  (atm_menu acct_no before s).2 = [] /\
  is_Some (accts (atm_menu acct_no before s).1.2 !! acct_no).
Proof.
  intros Hin Hbefore. revert s Hin.
  induction Hbefore as [|t before Ht _ IH]; intros s Hin; [now cbn|].
  assert (Hreturns : forall o : operation,
            session_account o = Some acct_no ->
            exists r, run o s = Returned r (after o s) /\
                      is_Some (accts (after o s) !! acct_no)).
  { intros o Ho. destruct (run_returns o s) as [r Hr].
    - intros k Hk. congruence.
    - exists r. split; [exact Hr|]. apply (account_stays [o] s _ Hin). }
  destruct Hin as [a Ha].
  cbn [atm_menu]. repeat case_bool_decide; try contradiction.
  - unfold check_balance, bind. rewrite (get_account_found _ _ _ Ha).
    apply IH. eauto.
  - destruct (Hreturns (Deposit acct_no (typed_amount t) (clock_1 t)) eq_refl)
      as (r & Hr & Hin').
    rewrite (resume_run _ error_of _ _ _ _ _ Hr). now apply IH.
  - destruct (Hreturns (Withdraw acct_no (typed_amount t) (clock_1 t)) eq_refl)
      as (r & Hr & Hin').
    rewrite (resume_run _ error_of _ _ _ _ _ Hr). now apply IH.
  - destruct (Hreturns (Transfer acct_no (typed_account t) (typed_amount t)
                          (clock_1 t) (clock_2 t)) eq_refl) as (r & Hr & Hin').
    rewrite (resume_run _ error_of _ _ _ _ _ Hr). now apply IH.
  - rewrite (mini_statement_found _ _ _ _ Ha). apply IH. eauto.
  - destruct (Hreturns (ChangePin acct_no (typed_pin t) (typed_new_pin t)
                          (typed_confirm t) (clock_1 t)) eq_refl)
      as (r & Hr & Hin').
    rewrite (resume_run _ error_of _ _ _ _ _ Hr). now apply IH.
  - apply IH. eauto.
Qed.

Lemma atm_menu_app acct_no (before after_ : list turn) s :
  is_Some (accts s !! acct_no) ->
  Forall (fun t => typed_choice t <> "7") before ->
  atm_menu acct_no (before ++ after_) s =
  atm_menu acct_no after_ (atm_menu acct_no before s).1.2.
Proof.
  intros Hin Hbefore. revert s Hin.
  induction Hbefore as [|t before Ht _ IH]; intros s Hin.
  { cbn. now destruct after_. }
  assert (Hreturns : forall o : operation,
            session_account o = Some acct_no ->
            exists r, run o s = Returned r (after o s) /\
                      is_Some (accts (after o s) !! acct_no)).
  { intros o Ho. destruct (run_returns o s) as [r Hr].
    - intros k Hk. congruence.
    - exists r. split; [exact Hr|]. apply (account_stays [o] s _ Hin). }
  destruct Hin as [a Ha].
  cbn [app atm_menu]. repeat case_bool_decide; try contradiction.
  - unfold check_balance, bind. rewrite (get_account_found _ _ _ Ha).
    apply IH. eauto.
  - destruct (Hreturns (Deposit acct_no (typed_amount t) (clock_1 t)) eq_refl)
      as (r & Hr & Hin').
    rewrite !(resume_run _ error_of _ _ _ _ _ Hr). now apply IH.
  - destruct (Hreturns (Withdraw acct_no (typed_amount t) (clock_1 t)) eq_refl)
      as (r & Hr & Hin').
    rewrite !(resume_run _ error_of _ _ _ _ _ Hr). now apply IH.
  - destruct (Hreturns (Transfer acct_no (typed_account t) (typed_amount t)
                          (clock_1 t) (clock_2 t)) eq_refl) as (r & Hr & Hin').
    rewrite !(resume_run _ error_of _ _ _ _ _ Hr). now apply IH.
  - rewrite (mini_statement_found _ _ _ _ Ha). apply IH. eauto.
  - destruct (Hreturns (ChangePin acct_no (typed_pin t) (typed_new_pin t)
                          (typed_confirm t) (clock_1 t)) eq_refl)
      as (r & Hr & Hin').
    rewrite !(resume_run _ error_of _ _ _ _ _ Hr). now apply IH.
  - apply IH. eauto.
Qed.

(** X24. A session ends at the first choice 7: the turns before it are
    carried out, the turns after it are left unread; without a choice 7
    the session reads every turn and ends when the input is closed. *)
Theorem session_ends_at_first_exit acct_no (before rest : list turn) (t : turn) s :
  is_Some (accts s !! acct_no) ->
  Forall (fun t => typed_choice t <> "7") before ->
  typed_choice t = "7" ->
  exists s',
    atm_menu acct_no before s = (Input_closed, s', []) /\
    atm_menu acct_no (before ++ t :: rest) s = (Exited, s', rest).
Proof.
  intros Hin Hbefore Ht.
  destruct (atm_menu_no_exit acct_no before s Hin Hbefore) as (He & Hrest & _).
  exists (atm_menu acct_no before s).1.2. split.
  - destruct (atm_menu acct_no before s) as [[e s'] r]. cbn in *. congruence.
  - rewrite (atm_menu_app _ _ _ _ Hin Hbefore). cbn [atm_menu].
    repeat case_bool_decide; try congruence.
Qed.

End Further.

(** * Instances of the further properties *)

Section MoreSamples.
Existing Instance snapshot_json.
Existing Instance ascii_text.

Lemma empty_ledgers_current : ledgers_current ∅.
Proof. intros k a H. rewrite lookup_empty in H. discriminate. Qed.

Lemma demo_ledgers_current : ledgers_current (accts demo_state).
Proof.
  apply (after_all_ledgers_current
           [Create "1001" "Alice" "1234" (Some (float_of_Z 5000)) "2025-01-01 09:00:00";
            Create "1002" "Bob" "2345" (Some (float_of_Z 3000)) "2025-01-01 09:00:00"]
           empty_state).
  exact empty_ledgers_current.
Qed.

Lemma empty_state_synced : synced empty_state.
Proof. reflexivity. Qed.

Lemma key_error_leaves_state_witness :
  run (Deposit "9999" (Some (float_of_Z 200)) "2025-01-02 10:00:00") demo_state
  = Raised (KeyError "9999") demo_state /\
  (demo_state = demo_state /\
   session_account (Deposit "9999" (Some (float_of_Z 200)) "2025-01-02 10:00:00")
   = Some "9999" /\
   accts demo_state !! "9999" = None).
Proof.
  assert (H : run (Deposit "9999" (Some (float_of_Z 200)) "2025-01-02 10:00:00")
                demo_state = Raised (KeyError "9999") demo_state)
    by (vm_compute; reflexivity).
  split; [exact H|].
  apply (key_error_leaves_state
           (Deposit "9999" (Some (float_of_Z 200)) "2025-01-02 10:00:00")
           demo_state "9999" demo_state H).
Defined.

Lemma known_account_no_key_error_witness :
  is_Some (accts demo_state !! "1001") /\
  forall k s',
    run (Withdraw "1001" (Some (float_of_Z 300)) "2025-01-02 10:00:00") demo_state
    <> Raised (KeyError k) s'.
Proof.
  assert (H : is_Some (accts demo_state !! "1001"))
    by (exists alice; vm_compute; reflexivity).
  split; [exact H|].
  apply known_account_no_key_error.
  intros k Hk. injection Hk as <-. exact H.
Defined.

Lemma operation_frame_witness :
  accts (after (Deposit "1001" (Some (float_of_Z 200)) "2025-01-02 10:00:00")
           demo_state) !! "1002" =
  accts demo_state !! "1002".
Proof.
  apply operation_frame. cbn. intros H.
  apply list_elem_of_singleton in H. discriminate H.
Defined.

Lemma only_snapshot_written_witness :
  files (after_all
           [Deposit "1001" (Some (float_of_Z 200)) "2025-01-02 10:00:00";
            Withdraw "1001" (Some (float_of_Z 50)) "2025-01-02 10:05:00"]
           demo_state) !! "notes.txt" =
  files demo_state !! "notes.txt".
Proof. apply only_snapshot_written. discriminate. Defined.

Lemma pin_changes_only_by_change_pin_witness :
  exists now,
    ChangePin "1001" "1234" "4321" "4321" "2025-01-02 10:20:00" =
    ChangePin "1001" (pin alice) "4321" "4321" now /\
    pin_ok "4321" = true.
Proof.
  apply (pin_changes_only_by_change_pin
           (ChangePin "1001" "1234" "4321" "4321" "2025-01-02 10:20:00")
           demo_state "1001" alice
           (mkAccount "Alice" "4321" (float_of_Z 5000)
              (transactions alice ++
               [mkTransaction "2025-01-02 10:20:00" "PIN Change" float_zero
                  "PIN updated" (float_of_Z 5000)]))).
  - vm_compute. reflexivity.
  - vm_compute. reflexivity.
  - discriminate.
Defined.

Lemma account_appears_only_by_create_witness :
  exists nm p initial_balance now,
    Create "1003" "Carol" "9999" None "2025-01-02 11:00:00" =
    Create "1003" nm p initial_balance now /\
    mkAccount "Carol" "9999" float_zero
      [mkTransaction "2025-01-02 11:00:00" "Account Created" float_zero
         "Initial account setup" float_zero] =
    mkAccount nm p (default float_zero initial_balance)
      [mkTransaction now "Account Created" float_zero
         "Initial account setup" (default float_zero initial_balance)].
Proof.
  apply (account_appears_only_by_create
           (Create "1003" "Carol" "9999" None "2025-01-02 11:00:00") demo_state).
  - vm_compute. reflexivity.
  - vm_compute. reflexivity.
Defined.

Lemma ledgers_stay_current_witness :
  ledgers_current
    (accts
       (after_all
          [Create "1001" "Alice" "1234" (Some (float_of_Z 5000)) "2025-01-01 09:00:00";
           Deposit "1001" (Some (float_of_Z 200)) "2025-01-02 10:00:00";
           Transfer "1001" "1001" (Some (float_of_Z 100))
             "2025-01-02 10:10:00" "2025-01-02 10:10:01"]
          empty_state)).
Proof.
  apply ledgers_stay_current.
  intros k a H. cbn in H. rewrite lookup_empty in H. discriminate H.
Defined.

Lemma operations_keep_synced_witness :
  synced demo_state /\ reload_accounts demo_state = Returned tt demo_state.
Proof.
  apply (operations_keep_synced
           [Create "1001" "Alice" "1234" (Some (float_of_Z 5000)) "2025-01-01 09:00:00";
            Create "1002" "Bob" "2345" (Some (float_of_Z 3000)) "2025-01-01 09:00:00"]
           empty_state).
  - intros accounts. reflexivity.
  - reflexivity.
Defined.

Lemma transfer_refusals_witness :
  transfer "1001" "7777" None "2025-01-02 10:10:00" "2025-01-02 10:10:01" demo_state =
  Returned Destination_does_not_exist demo_state /\
  transfer "1001" "1002" (Some (float_of_Z 9000))
    "2025-01-02 10:10:00" "2025-01-02 10:10:01" demo_state =
  Returned Insufficient_funds demo_state.
Proof.
  split.
  - apply (proj1 (transfer_refusals demo_state "1001" "7777" None
                    "2025-01-02 10:10:00" "2025-01-02 10:10:01")).
    vm_compute. reflexivity.
  - apply (proj2 (proj2 (proj2
             (transfer_refusals demo_state "1001" "1002" (Some (float_of_Z 9000))
                "2025-01-02 10:10:00" "2025-01-02 10:10:01")))
             (ex_intro _ bob eq_refl) (float_of_Z 9000) alice);
      vm_compute; reflexivity.
Defined.

Lemma deposit_keeps_balances_nonnegative_witness :
  balances_nonnegative
    (accts (after (Deposit "1001" (Some (S754_infinity false)) "2025-01-02 10:00:00")
              demo_state)).
Proof.
  apply deposit_keeps_balances_nonnegative.
  - discriminate.
  - exact demo_balances_nonnegative.
Defined.

Lemma changed_pin_logs_in_witness :
  let s' :=
    final_state
      (change_pin "1001" "1234" "4321" "4321" "2025-01-02 10:20:00" demo_state) in
  authenticate "1001" "4321" s' = Returned (Some "1001", Welcome "Alice") s' /\
  ("1234" <> "4321" ->
   authenticate "1001" "1234" s' = Returned (None, Invalid_PIN) s').
Proof.
  apply (changed_pin_logs_in demo_state _ "1001" alice "1234" "4321" "4321"
           "2025-01-02 10:20:00").
  - vm_compute. reflexivity.
  - vm_compute. reflexivity.
Defined.

Lemma created_account_logs_in_witness :
  let s' :=
    after (Create "1003" "Carol" "9999" None "2025-01-02 11:00:00") demo_state in
  authenticate "1003" "9999" s' = Returned (Some "1003", Welcome "Carol") s' /\
  ("0000" <> "9999" ->
   authenticate "1003" "0000" s' = Returned (None, Invalid_PIN) s').
Proof.
  apply (created_account_logs_in demo_state "1003" "Carol" "9999" None
           "2025-01-02 11:00:00" "0000").
  vm_compute. reflexivity.
Defined.

Lemma mini_statement_shows_last_witness :
  exists older shown,
    transactions alice = (older ++ shown)%list /\
    length shown = Nat.min (Z.to_nat 10) (length (transactions alice)) /\
    mini_statement "1001" None demo_state =
    Returned
      (match transactions alice with
       | [] => No_transactions_yet
       | _ :: _ => Last_transactions shown
       end) demo_state.
Proof.
  apply (mini_statement_shows_last demo_state "1001" alice None).
  - vm_compute. reflexivity.
  - reflexivity.
Defined.

Lemma mini_statement_nonpositive_limit_witness :
  mini_statement "1001" (Some 0%Z) demo_state =
  Returned (Last_transactions (transactions alice)) demo_state.
Proof.
  apply (proj1 (mini_statement_nonpositive_limit demo_state "1001" alice 0%Z
                  ltac:(vm_compute; reflexivity) ltac:(discriminate))).
Defined.

Lemma statement_ends_with_balance_witness :
  exists shown e,
    mini_statement "1001" None demo_state = Returned (Last_transactions shown) demo_state /\
    last shown = Some e /\
    check_balance "1001" demo_state = Returned (tx_balance e) demo_state.
Proof.
  apply (statement_ends_with_balance demo_state "1001" alice None).
  - exact demo_ledgers_current.
  - vm_compute. reflexivity.
  - reflexivity.
Defined.

Lemma session_no_key_error_witness :
  is_Some (accts demo_state !! "1001") /\
  forall k,
    (atm_menu "1001" (tail sample_visit) demo_state).1.1 <> Crashed (KeyError k).
Proof.
  assert (H : is_Some (accts demo_state !! "1001"))
    by (exists alice; vm_compute; reflexivity).
  split; [exact H|].
  apply session_no_key_error. exact H.
Defined.

Lemma session_confined_witness :
  others_credited "1001" (accts demo_state)
    (accts (atm_menu "1001" (tail sample_visit) demo_state).1.2).
Proof.
  apply session_confined. exists alice. vm_compute. reflexivity.
Defined.

Lemma main_no_key_or_decoding_error_witness :
  exists e s,
    main "2025-01-01 09:00:00" "2025-01-01 09:00:00" sample_visit
      {[ACCOUNTS_FILE := accts demo_state]} = Some (e, s) /\
    (forall k, e <> Crashed (KeyError k)) /\ e <> Crashed JSONDecodeError.
Proof.
  apply main_no_key_or_decoding_error.
  - intros accounts. reflexivity.
  - intros c _. exists c. reflexivity.
Defined.

Lemma main_corrupt_snapshot_witness :
  main (codec := fallible_json) "2025-01-01 09:00:00" "2025-01-01 09:00:00"
    sample_visit {[ACCOUNTS_FILE := None]} =
  Some (Crashed JSONDecodeError, mkState ∅ {[ACCOUNTS_FILE := None]}).
Proof.
  apply (main_corrupt_snapshot (codec := fallible_json) _ _ _ _ None).
  - vm_compute. reflexivity.
  - reflexivity.
Defined.

Lemma empty_account_number_opens_no_session_witness :
  let s := after (Create "" "Nobody" "0000" None "2025-01-01 09:00:00") empty_state in
  let t := mkTurn "1" "" "" "0000" "" "" None "" "" in
  authenticate (typed_account t) (typed_pin t) s =
  Returned (Some "", Welcome "Nobody") s /\
  login t [choose "2"] s = (Exited, s, [choose "2"]).
Proof.
  apply (empty_account_number_opens_no_session _ _ _
           (mkAccount "Nobody" "0000" float_zero
              [mkTransaction "2025-01-01 09:00:00" "Account Created" float_zero
                 "Initial account setup" float_zero])).
  - vm_compute. reflexivity.
  - vm_compute. reflexivity.
  - reflexivity.
  - reflexivity.
Defined.

Lemma nan_balance_is_permanent_witness :
  let s := after (Withdraw "1001" (Some S754_nan) "2025-01-02 10:00:00") demo_state in
  exists acct',
    accts (after_all
             [Deposit "1001" (Some (float_of_Z 100)) "2025-01-02 10:05:00";
              Withdraw "1001" (Some (float_of_Z 100)) "2025-01-02 10:06:00"] s)
      !! "1001" = Some acct' /\
    balance acct' = S754_nan.
Proof.
  apply (nan_balance_is_permanent _ _ "1001"
           (mkAccount "Alice" "1234" S754_nan
              (transactions alice ++
               [mkTransaction "2025-01-02 10:00:00" "Withdrawal" S754_nan
                  "Cash withdrawal" S754_nan]))).
  - vm_compute. reflexivity.
  - reflexivity.
Defined.

Lemma session_ends_at_first_exit_witness :
  exists s',
    atm_menu "1001" [choose "1"; choose "9"] demo_state = (Input_closed, s', []) /\
    atm_menu "1001" ([choose "1"; choose "9"] ++ choose "7" :: [choose "3"]) demo_state =
    (Exited, s', [choose "3"]).
Proof.
  apply session_ends_at_first_exit.
  - exists alice. vm_compute. reflexivity.
  - repeat constructor; discriminate.
  - reflexivity.
Defined.

End MoreSamples.
